(** * VR embedded telemetry core: tick scheduler and error/state machine

    A shallow embedding of [src/vr_embedded.c] (with the pieces of
    [vr_rabbitmq.c] and [vr_telemetry.h] it depends on) and the properties of
    the scheduler, the error/state machine, the watchdog gate and the sensor
    synthesiser that the specification states about it.

    Conventions.
    - [uint32_t] values are [Z] in [0, 2^32) and every increment or
      subtraction writes its wrap-around out ([wrap32]).
    - [float] values that the machine state carries are IEEE binary32 numbers
      ([spec_float] at precision 24, [emax] 128); expressions that go through
      libm ([sin], [sqrt]) are treated over the reals in [Module Quaternion].
    - The process-wide globals of the C file form one record, [machine];
      every C function is a computation in a state monad whose failure cases
      are the two ways the C code can stop making progress: locking the
      non-recursive [g_system_mutex] while it is held, and dividing by a
      zero rate.
    - What the C code reads from its environment ([rand()], the broker) is an
      explicit argument of the function that reads it. *)

From Stdlib Require Import ZArith List Bool Lia.
From Stdlib Require Import Floats.SpecFloat.
From Stdlib Require Import Reals Lra.
Import ListNotations.

Local Open Scope Z_scope.

(** ** Fixed-width integers *)

Definition wrap32 (x : Z) : Z := x mod 2 ^ 32.
Definition wrap8 (x : Z) : Z := x mod 2 ^ 8.
Definition u32 (x : Z) : Prop := 0 <= x < 2 ^ 32.

(** ** IEEE binary32 values ([float]) *)

Module F32.

Definition prec : Z := 24.
Definition emax : Z := 128.

Definition f32 : Type := spec_float.

Definition of_Z (n : Z) : f32 := binary_normalize prec emax n 0 false.
Definition add : f32 -> f32 -> f32 := SFadd prec emax.
Definition sub : f32 -> f32 -> f32 := SFsub prec emax.
Definition mul : f32 -> f32 -> f32 := SFmul prec emax.
Definition div : f32 -> f32 -> f32 := SFdiv prec emax.
Definition ltb : f32 -> f32 -> bool := SFltb.

(** A decimal literal [n/d] with the suffix [f]: the nearest binary32. *)
Definition lit (n d : Z) : f32 := div (of_Z n) (of_Z d).

(** Conversion of a [float] to an integer type discards the fractional
    part (truncation toward zero).  Infinities and NaN have no integral
    part. *)
Definition trunc (x : f32) : option Z :=
  match x with
  | S754_zero _ => Some 0
  | S754_finite s m e =>
      let mag := if 0 <=? e then Z.pos m * 2 ^ e else Z.pos m / 2 ^ (- e) in
      Some (if s then - mag else mag)
  | S754_infinity _ | S754_nan => None
  end.

(** [(uint8_t) x].  ISO C (6.3.1.4) defines the result only when the
    integral part fits the destination type; otherwise the behaviour is
    undefined, which is [None] here. *)
Definition to_uint8 (x : f32) : option Z :=
  match trunc x with
  | Some n => if (0 <=? n) && (n <=? 255) then Some n else None
  | None => None
  end.

End F32.

Abbreviation f32 := F32.f32.

(** ** Data model ([vr_telemetry.h]) *)

Inductive vr_system_state_t : Type :=
| VR_SYSTEM_INIT
| VR_SYSTEM_READY
| VR_SYSTEM_TRACKING
| VR_SYSTEM_ERROR
| VR_SYSTEM_SLEEP
| VR_SYSTEM_SHUTDOWN.

Record vr_embedded_config_t : Type := mkConfig {
  system_clock_hz : Z;
  sensor_update_hz : Z;
  telemetry_rate_hz : Z;
  watchdog_enabled : bool;
  watchdog_timeout_ms : Z;
  power_save_enabled : bool;
  cpu_sleep_level : Z
}.

Record vr_embedded_status_t : Type := mkStatus {
  state : vr_system_state_t;
  uptime_ms : Z;
  last_watchdog_reset : Z;
  error_count : Z;
  reset_count : Z;
  sensors_initialized : bool;
  communication_ready : bool
}.

(** The fields of [vr_telemetry_packet_t] whose values do not go through
    libm.  [battery_level] is [None] when the conversion that produced it
    has no defined result. *)
Record vr_telemetry_packet_t : Type := mkPacket {
  frame_id : Z;
  battery_level : option Z
}.

(** Error codes. *)
Definition VR_ERROR_SENSOR_INIT_FAILED : Z := 1.
Definition VR_ERROR_COMM_TIMEOUT : Z := 2.
Definition VR_ERROR_WATCHDOG_TIMEOUT : Z := 3.
Definition VR_ERROR_POWER_LOW : Z := 4.
Definition VR_ERROR_SENSOR_CALIBRATION : Z := 5.
Definition VR_ERROR_MEMORY_ALLOC : Z := 6.

(** Lines the error/state machine prints: the error handler's report, the
    state setter's notice and the telemetry path's own failure notice. *)
Inductive log_line : Type :=
| LogError (code count : Z)
| LogStateChanged (s : vr_system_state_t)
| LogTooManyErrors
| LogSendFailed (count : Z).

(** [g_conn] of [vr_rabbitmq.c]: a live connection, or a pointer that is
    null or that [amqp_destroy_connection] has released. *)
Inductive conn_t : Type :=
| ConnLive
| ConnInvalid.

(** What the program does to the world besides printing: a call of
    [amqp_basic_publish] (with the state of the connection it is made on,
    the frame id of the packet and whether the broker accepts it), the
    closing of a connection, and the pause of [vr_power_enter_sleep] with
    its notice. *)
Inductive effect : Type :=
| EffPublish (conn : conn_t) (frame : Z) (accepted : bool)
| EffClose (conn : conn_t)
| EffSleep (level : Z).

(** The globals of [vr_embedded.c], the two static locals of
    [vr_sensors_update], [g_connected] of [vr_rabbitmq.c] and the printed
    lines (most recent first). *)
Record machine : Type := mkMachine {
  g_embedded_config : vr_embedded_config_t;
  g_embedded_status : vr_embedded_status_t;
  g_telemetry_packet : vr_telemetry_packet_t;
  g_system_mutex : bool;
  g_system_tick : Z;
  g_last_sensor_update : Z;
  g_last_telemetry_send : Z;
  g_last_watchdog_feed : Z;
  g_sensor_buffer_index : Z;
  g_system_voltage : f32;
  g_system_current : f32;
  g_power_save_active : bool;
  simulation_time : f32;
  frame_counter : Z;
  g_connected : bool;
  console : list log_line;
  g_conn : conn_t;
  effects : list effect
}.

(** *** Field updates *)

Definition set_state (v : vr_system_state_t) (s : vr_embedded_status_t) :=
  mkStatus v (uptime_ms s) (last_watchdog_reset s) (error_count s)
           (reset_count s) (sensors_initialized s) (communication_ready s).
Definition set_uptime_ms (v : Z) (s : vr_embedded_status_t) :=
  mkStatus (state s) v (last_watchdog_reset s) (error_count s)
           (reset_count s) (sensors_initialized s) (communication_ready s).
Definition set_last_watchdog_reset (v : Z) (s : vr_embedded_status_t) :=
  mkStatus (state s) (uptime_ms s) v (error_count s)
           (reset_count s) (sensors_initialized s) (communication_ready s).
Definition set_error_count (v : Z) (s : vr_embedded_status_t) :=
  mkStatus (state s) (uptime_ms s) (last_watchdog_reset s) v
           (reset_count s) (sensors_initialized s) (communication_ready s).
Definition set_reset_count (v : Z) (s : vr_embedded_status_t) :=
  mkStatus (state s) (uptime_ms s) (last_watchdog_reset s) (error_count s)
           v (sensors_initialized s) (communication_ready s).
Definition set_sensors_initialized (v : bool) (s : vr_embedded_status_t) :=
  mkStatus (state s) (uptime_ms s) (last_watchdog_reset s) (error_count s)
           (reset_count s) v (communication_ready s).
Definition set_communication_ready (v : bool) (s : vr_embedded_status_t) :=
  mkStatus (state s) (uptime_ms s) (last_watchdog_reset s) (error_count s)
           (reset_count s) (sensors_initialized s) v.

Definition with_config (v : vr_embedded_config_t) (m : machine) :=
  mkMachine v (g_embedded_status m) (g_telemetry_packet m) (g_system_mutex m)
    (g_system_tick m) (g_last_sensor_update m) (g_last_telemetry_send m)
    (g_last_watchdog_feed m) (g_sensor_buffer_index m) (g_system_voltage m)
    (g_system_current m) (g_power_save_active m) (simulation_time m)
    (frame_counter m) (g_connected m) (console m)
    (g_conn m) (effects m).
Definition with_status (v : vr_embedded_status_t) (m : machine) :=
  mkMachine (g_embedded_config m) v (g_telemetry_packet m) (g_system_mutex m)
    (g_system_tick m) (g_last_sensor_update m) (g_last_telemetry_send m)
    (g_last_watchdog_feed m) (g_sensor_buffer_index m) (g_system_voltage m)
    (g_system_current m) (g_power_save_active m) (simulation_time m)
    (frame_counter m) (g_connected m) (console m)
    (g_conn m) (effects m).
Definition with_packet (v : vr_telemetry_packet_t) (m : machine) :=
  mkMachine (g_embedded_config m) (g_embedded_status m) v (g_system_mutex m)
    (g_system_tick m) (g_last_sensor_update m) (g_last_telemetry_send m)
    (g_last_watchdog_feed m) (g_sensor_buffer_index m) (g_system_voltage m)
    (g_system_current m) (g_power_save_active m) (simulation_time m)
    (frame_counter m) (g_connected m) (console m)
    (g_conn m) (effects m).
Definition with_mutex (v : bool) (m : machine) :=
  mkMachine (g_embedded_config m) (g_embedded_status m) (g_telemetry_packet m) v
    (g_system_tick m) (g_last_sensor_update m) (g_last_telemetry_send m)
    (g_last_watchdog_feed m) (g_sensor_buffer_index m) (g_system_voltage m)
    (g_system_current m) (g_power_save_active m) (simulation_time m)
    (frame_counter m) (g_connected m) (console m)
    (g_conn m) (effects m).
Definition with_tick (v : Z) (m : machine) :=
  mkMachine (g_embedded_config m) (g_embedded_status m) (g_telemetry_packet m)
    (g_system_mutex m) v (g_last_sensor_update m) (g_last_telemetry_send m)
    (g_last_watchdog_feed m) (g_sensor_buffer_index m) (g_system_voltage m)
    (g_system_current m) (g_power_save_active m) (simulation_time m)
    (frame_counter m) (g_connected m) (console m)
    (g_conn m) (effects m).
Definition with_last_sensor_update (v : Z) (m : machine) :=
  mkMachine (g_embedded_config m) (g_embedded_status m) (g_telemetry_packet m)
    (g_system_mutex m) (g_system_tick m) v (g_last_telemetry_send m)
    (g_last_watchdog_feed m) (g_sensor_buffer_index m) (g_system_voltage m)
    (g_system_current m) (g_power_save_active m) (simulation_time m)
    (frame_counter m) (g_connected m) (console m)
    (g_conn m) (effects m).
Definition with_last_telemetry_send (v : Z) (m : machine) :=
  mkMachine (g_embedded_config m) (g_embedded_status m) (g_telemetry_packet m)
    (g_system_mutex m) (g_system_tick m) (g_last_sensor_update m) v
    (g_last_watchdog_feed m) (g_sensor_buffer_index m) (g_system_voltage m)
    (g_system_current m) (g_power_save_active m) (simulation_time m)
    (frame_counter m) (g_connected m) (console m)
    (g_conn m) (effects m).
Definition with_last_watchdog_feed (v : Z) (m : machine) :=
  mkMachine (g_embedded_config m) (g_embedded_status m) (g_telemetry_packet m)
    (g_system_mutex m) (g_system_tick m) (g_last_sensor_update m)
    (g_last_telemetry_send m) v (g_sensor_buffer_index m) (g_system_voltage m)
    (g_system_current m) (g_power_save_active m) (simulation_time m)
    (frame_counter m) (g_connected m) (console m)
    (g_conn m) (effects m).
Definition with_sensor_buffer_index (v : Z) (m : machine) :=
  mkMachine (g_embedded_config m) (g_embedded_status m) (g_telemetry_packet m)
    (g_system_mutex m) (g_system_tick m) (g_last_sensor_update m)
    (g_last_telemetry_send m) (g_last_watchdog_feed m) v (g_system_voltage m)
    (g_system_current m) (g_power_save_active m) (simulation_time m)
    (frame_counter m) (g_connected m) (console m)
    (g_conn m) (effects m).
Definition with_voltage (v : f32) (m : machine) :=
  mkMachine (g_embedded_config m) (g_embedded_status m) (g_telemetry_packet m)
    (g_system_mutex m) (g_system_tick m) (g_last_sensor_update m)
    (g_last_telemetry_send m) (g_last_watchdog_feed m)
    (g_sensor_buffer_index m) v
    (g_system_current m) (g_power_save_active m) (simulation_time m)
    (frame_counter m) (g_connected m) (console m)
    (g_conn m) (effects m).
Definition with_current (v : f32) (m : machine) :=
  mkMachine (g_embedded_config m) (g_embedded_status m) (g_telemetry_packet m)
    (g_system_mutex m) (g_system_tick m) (g_last_sensor_update m)
    (g_last_telemetry_send m) (g_last_watchdog_feed m)
    (g_sensor_buffer_index m) (g_system_voltage m)
    v (g_power_save_active m) (simulation_time m)
    (frame_counter m) (g_connected m) (console m)
    (g_conn m) (effects m).
Definition with_power_save_active (v : bool) (m : machine) :=
  mkMachine (g_embedded_config m) (g_embedded_status m) (g_telemetry_packet m)
    (g_system_mutex m) (g_system_tick m) (g_last_sensor_update m)
    (g_last_telemetry_send m) (g_last_watchdog_feed m)
    (g_sensor_buffer_index m) (g_system_voltage m)
    (g_system_current m) v (simulation_time m)
    (frame_counter m) (g_connected m) (console m)
    (g_conn m) (effects m).
Definition with_simulation_time (v : f32) (m : machine) :=
  mkMachine (g_embedded_config m) (g_embedded_status m) (g_telemetry_packet m)
    (g_system_mutex m) (g_system_tick m) (g_last_sensor_update m)
    (g_last_telemetry_send m) (g_last_watchdog_feed m)
    (g_sensor_buffer_index m) (g_system_voltage m)
    (g_system_current m) (g_power_save_active m) v
    (frame_counter m) (g_connected m) (console m)
    (g_conn m) (effects m).
Definition with_frame_counter (v : Z) (m : machine) :=
  mkMachine (g_embedded_config m) (g_embedded_status m) (g_telemetry_packet m)
    (g_system_mutex m) (g_system_tick m) (g_last_sensor_update m)
    (g_last_telemetry_send m) (g_last_watchdog_feed m)
    (g_sensor_buffer_index m) (g_system_voltage m)
    (g_system_current m) (g_power_save_active m) (simulation_time m)
    v (g_connected m) (console m)
    (g_conn m) (effects m).
Definition with_connected (v : bool) (m : machine) :=
  mkMachine (g_embedded_config m) (g_embedded_status m) (g_telemetry_packet m)
    (g_system_mutex m) (g_system_tick m) (g_last_sensor_update m)
    (g_last_telemetry_send m) (g_last_watchdog_feed m)
    (g_sensor_buffer_index m) (g_system_voltage m)
    (g_system_current m) (g_power_save_active m) (simulation_time m)
    (frame_counter m) v (console m)
    (g_conn m) (effects m).
Definition with_console (v : list log_line) (m : machine) :=
  mkMachine (g_embedded_config m) (g_embedded_status m) (g_telemetry_packet m)
    (g_system_mutex m) (g_system_tick m) (g_last_sensor_update m)
    (g_last_telemetry_send m) (g_last_watchdog_feed m)
    (g_sensor_buffer_index m) (g_system_voltage m)
    (g_system_current m) (g_power_save_active m) (simulation_time m)
    (frame_counter m) (g_connected m) v
    (g_conn m) (effects m).

Definition with_conn (v : conn_t) (m : machine) :=
  mkMachine (g_embedded_config m) (g_embedded_status m) (g_telemetry_packet m)
    (g_system_mutex m) (g_system_tick m) (g_last_sensor_update m)
    (g_last_telemetry_send m) (g_last_watchdog_feed m)
    (g_sensor_buffer_index m) (g_system_voltage m)
    (g_system_current m) (g_power_save_active m) (simulation_time m)
    (frame_counter m) (g_connected m) (console m)
    v (effects m).
Definition with_effects (v : list effect) (m : machine) :=
  mkMachine (g_embedded_config m) (g_embedded_status m) (g_telemetry_packet m)
    (g_system_mutex m) (g_system_tick m) (g_last_sensor_update m)
    (g_last_telemetry_send m) (g_last_watchdog_feed m)
    (g_sensor_buffer_index m) (g_system_voltage m)
    (g_system_current m) (g_power_save_active m) (simulation_time m)
    (frame_counter m) (g_connected m) (console m)
    (g_conn m) v.

(** ** The monad of the C functions *)

Inductive fault : Type :=
| Deadlock          (* [pthread_mutex_lock] on the mutex the thread holds *)
| DivisionByZero.   (* [1000 / rate] with a zero rate *)

Inductive outcome (A : Type) : Type :=
| Ret (a : A) (m : machine)
| Fault (f : fault) (m : machine).
Arguments Ret {A} a m.
Arguments Fault {A} f m.

Definition M (A : Type) : Type := machine -> outcome A.

Definition ret {A} (a : A) : M A := fun m => Ret a m.
Definition bind {A B} (c : M A) (k : A -> M B) : M B :=
  fun m => match c m with
           | Ret a m' => k a m'
           | Fault f m' => Fault f m'
           end.
Definition get : M machine := fun m => Ret m m.
Definition modify (f : machine -> machine) : M unit := fun m => Ret tt (f m).
Definition raise {A} (f : fault) : M A := fun m => Fault f m.
Definition when (b : bool) (c : M unit) : M unit := if b then c else ret tt.

Declare Scope vr_scope.
Delimit Scope vr_scope with vr.
Notation "x <- c ;; k" := (bind c (fun x => k))
  (at level 61, c at next level, right associativity) : vr_scope.
Notation "c ;; k" := (bind c (fun _ => k))
  (at level 61, right associativity) : vr_scope.
Local Open Scope vr_scope.

Definition modify_status (f : vr_embedded_status_t -> vr_embedded_status_t)
  : M unit :=
  modify (fun m => with_status (f (g_embedded_status m)) m).

Definition printf (l : log_line) : M unit :=
  modify (fun m => with_console (l :: console m) m).

Definition perform (e : effect) : M unit :=
  modify (fun m => with_effects (e :: effects m) m).

(** [g_system_mutex] is a default (non-recursive) mutex: a second lock by
    the thread that holds it never returns. *)
Definition pthread_mutex_lock : M unit :=
  fun m => if g_system_mutex m then Fault Deadlock m
           else Ret tt (with_mutex true m).
Definition pthread_mutex_unlock : M unit := modify (with_mutex false).

(** ** The C functions *)

(** *** [vr_rabbitmq.c] as the core sees it *)

(** [vr_rabbitmq_init]: [broker_ok] tells whether the connection, login,
    channel and exchange steps all succeed.  Returns the C status
    ([0] or [-1]).  Either way [g_conn] is overwritten: by the new live
    connection, or by a pointer that is null or already destroyed, while
    [g_connected] is written on success only. *)
Definition vr_rabbitmq_init (broker_ok : bool) : M Z :=
  if broker_ok
  then modify (with_conn ConnLive) ;; modify (with_connected true) ;; ret 0
  else modify (with_conn ConnInvalid) ;; ret (-1).

Definition vr_rabbitmq_is_connected : M bool :=
  m <- get ;; ret (g_connected m).

(** [vr_rabbitmq_send_telemetry(&g_telemetry_packet)]: [publish_ok] tells
    whether [amqp_basic_publish] accepts the message.  The publish is made
    on [g_conn] whatever its state: the function tests [g_connected] only.
    The packet pointer is never null here, and the branch for a message
    over 2048 bytes is left out: the values [vr_sensors_update] writes are
    bounded and print well within the buffer. *)
Definition vr_rabbitmq_send_telemetry (publish_ok : bool) : M Z :=
  m <- get ;;
  if negb (g_connected m) then ret (-1)
  else
    perform (EffPublish (g_conn m) (frame_id (g_telemetry_packet m))
                        publish_ok) ;;
    if publish_ok then ret 0 else ret (-1).

(** *** State access *)

Definition vr_embedded_get_state : M vr_system_state_t :=
  pthread_mutex_lock ;;
  m <- get ;;
  pthread_mutex_unlock ;;
  ret (state (g_embedded_status m)).

Definition vr_embedded_set_state (s : vr_system_state_t) : M unit :=
  pthread_mutex_lock ;;
  modify_status (set_state s) ;;
  printf (LogStateChanged s) ;;
  pthread_mutex_unlock.

(** *** Error handling *)

Definition vr_error_handler (error_code : Z) : M unit :=
  modify_status (fun s => set_error_count (wrap32 (error_count s + 1)) s) ;;
  m <- get ;;
  printf (LogError error_code (error_count (g_embedded_status m))) ;;
  when (5 <? error_count (g_embedded_status m))
       (vr_embedded_set_state VR_SYSTEM_ERROR ;;
        printf LogTooManyErrors).

(** *** Sensors *)

(** [rand_value] is what the one call of [rand()] (at iteration 5 of the
    self-test loop) returns. *)
Definition vr_sensors_self_test (rand_value : Z) : bool :=
  if Z.rem rand_value 100 <? 5 then false else true.

Definition vr_sensors_init (rand_value : Z) : M unit :=
  modify (with_sensor_buffer_index 0) ;;
  modify (with_packet (mkPacket 0 (Some 100))) ;;
  if negb (vr_sensors_self_test rand_value)
  then vr_error_handler VR_ERROR_SENSOR_INIT_FAILED
  else ret tt (* vr_sensors_calibrate: delays only *).

(** The battery expression of [vr_sensors_update]:
    [(uint8_t)(100.0f - simulation_time * 0.1f)]. *)
Definition battery_of (t : f32) : option Z :=
  F32.to_uint8 (F32.sub (F32.of_Z 100) (F32.mul t (F32.lit 1 10))).

Definition vr_sensors_update : M unit :=
  modify (fun m =>
    with_simulation_time (F32.add (simulation_time m) (F32.lit 1 1000)) m) ;;
  modify (fun m =>
    with_frame_counter (wrap32 (frame_counter m + 1))
      (with_packet (mkPacket (frame_counter m)
                             (battery_level (g_telemetry_packet m))) m)) ;;
  modify (fun m =>
    with_packet (mkPacket (frame_id (g_telemetry_packet m))
                          (battery_of (simulation_time m))) m) ;;
  modify (fun m =>
    with_sensor_buffer_index (wrap8 ((g_sensor_buffer_index m + 1) mod 32)) m).

(** *** Telemetry *)

Definition vr_telemetry_init (broker_ok : bool) : M unit :=
  r <- vr_rabbitmq_init broker_ok ;;
  when (negb (r =? 0)) (modify_status (set_communication_ready false)).

Definition vr_telemetry_is_ready : M bool :=
  m <- get ;;
  if communication_ready (g_embedded_status m)
  then vr_rabbitmq_is_connected
  else ret false.

Definition vr_telemetry_send_packet (publish_ok : bool) : M unit :=
  ready <- vr_telemetry_is_ready ;;
  if negb ready then ret tt
  else
    r <- vr_rabbitmq_send_telemetry publish_ok ;;
    when (negb (r =? 0))
      (modify_status (fun s => set_error_count (wrap32 (error_count s + 1)) s) ;;
       m <- get ;;
       printf (LogSendFailed (error_count (g_embedded_status m)))).

(** *** Power *)

Definition vr_power_init : M unit :=
  modify (with_voltage (F32.lit 33 10)) ;;
  modify (with_current (F32.lit 5 10)) ;;
  modify (with_power_save_active false).

(** [vr_power_enter_sleep]: the notice and the 10 ms pause are recorded as
    one [EffSleep]; the flag is set for the length of the pause only. *)
Definition vr_power_enter_sleep (sleep_level : Z) : M unit :=
  when (0 <? sleep_level)
    (perform (EffSleep sleep_level) ;;
     modify (with_power_save_active true) ;;
     modify (with_power_save_active false)).

(** *** Watchdog *)

Definition vr_watchdog_init (timeout_ms : Z) : M unit :=
  m <- get ;; modify_status (set_last_watchdog_reset (g_system_tick m)).

Definition vr_watchdog_feed : M unit :=
  m <- get ;; modify_status (set_last_watchdog_reset (g_system_tick m)).

(** *** Initialisation and reset *)

Definition default_config : vr_embedded_config_t :=
  mkConfig 168000000 1000 60 true 5000 true 1.

(** [config = None] is the C call with a null pointer. *)
Definition vr_embedded_init (config : option vr_embedded_config_t)
           (rand_value : Z) (broker_ok : bool) : M unit :=
  pthread_mutex_lock ;;
  modify (with_config (match config with
                       | Some c => c
                       | None => default_config
                       end)) ;;
  modify (with_status (mkStatus VR_SYSTEM_INIT 0 0 0 0 false false)) ;;
  vr_sensors_init rand_value ;;
  vr_power_init ;;
  m <- get ;;
  when (watchdog_enabled (g_embedded_config m))
       (vr_watchdog_init (watchdog_timeout_ms (g_embedded_config m))) ;;
  vr_telemetry_init broker_ok ;;
  modify_status (set_state VR_SYSTEM_READY) ;;
  modify_status (set_sensors_initialized true) ;;
  modify_status (set_communication_ready true) ;;
  pthread_mutex_unlock.

Definition vr_system_reset (rand_value : Z) (broker_ok : bool) : M unit :=
  modify_status (fun s => set_reset_count (wrap32 (reset_count s + 1)) s) ;;
  modify_status (set_error_count 0) ;;
  modify_status (set_state VR_SYSTEM_INIT) ;;
  m <- get ;;
  vr_embedded_init (Some (g_embedded_config m)) rand_value broker_ok.

(** *** The tick handler and the main loop *)

Definition vr_embedded_system_tick : M unit :=
  pthread_mutex_lock ;;
  modify (fun m => with_tick (wrap32 (g_system_tick m + 1)) m) ;;
  m <- get ;;
  modify_status (set_uptime_ms (g_system_tick m)) ;;
  when (10 <? error_count (g_embedded_status m))
       (vr_embedded_set_state VR_SYSTEM_ERROR ;;
        vr_error_handler VR_ERROR_SENSOR_INIT_FAILED) ;;
  m <- get ;;
  when (F32.ltb (g_system_voltage m) (F32.of_Z 3))
       (vr_error_handler VR_ERROR_POWER_LOW) ;;
  pthread_mutex_unlock.

(** [1000 / rate_hz] in [uint32_t] arithmetic. *)
Definition rate_interval (rate_hz : Z) : M Z :=
  if rate_hz =? 0 then raise DivisionByZero else ret (1000 / rate_hz).

(** The sensor gate of the loop body. *)
Definition sensor_gate : M unit :=
  m <- get ;;
  sensor_interval <- rate_interval (sensor_update_hz (g_embedded_config m)) ;;
  when (sensor_interval <=? wrap32 (g_system_tick m - g_last_sensor_update m))
       (vr_sensors_update ;;
        modify (fun m => with_last_sensor_update (g_system_tick m) m)).

(** The telemetry gate of the loop body. *)
Definition telemetry_gate (publish_ok : bool) : M unit :=
  m <- get ;;
  telemetry_interval <-
    rate_interval (telemetry_rate_hz (g_embedded_config m)) ;;
  when (telemetry_interval <=?
          wrap32 (g_system_tick m - g_last_telemetry_send m))
       (vr_telemetry_send_packet publish_ok ;;
        modify (fun m => with_last_telemetry_send (g_system_tick m) m)).

(** The watchdog gate of the loop body. *)
Definition watchdog_gate : M unit :=
  m <- get ;;
  when (watchdog_enabled (g_embedded_config m))
       (let watchdog_interval :=
          watchdog_timeout_ms (g_embedded_config m) / 2 in
        when (watchdog_interval <=?
                wrap32 (g_system_tick m - g_last_watchdog_feed m))
             (vr_watchdog_feed ;;
              modify (fun m => with_last_watchdog_feed (g_system_tick m) m))).

(** The power gate of the loop body. *)
Definition power_gate : M unit :=
  m <- get ;;
  when (power_save_enabled (g_embedded_config m) && g_power_save_active m)
       (vr_power_enter_sleep (cpu_sleep_level (g_embedded_config m))).

(** One pass through the body of the [while] loop of
    [vr_embedded_main_loop]. *)
Definition main_loop_body (publish_ok : bool) : M unit :=
  vr_embedded_system_tick ;;
  sensor_gate ;;
  telemetry_gate publish_ok ;;
  watchdog_gate ;;
  power_gate.

(** [vr_embedded_main_loop] never leaves its loop ([g_system_running] is
    never cleared), so a run is a number of passes; [sink] gives, pass by
    pass, whether a publish attempted in that pass succeeds. *)
Fixpoint vr_embedded_main_loop (sink : list bool) : M unit :=
  match sink with
  | [] => ret tt
  | publish_ok :: rest =>
      main_loop_body publish_ok ;; vr_embedded_main_loop rest
  end.

(** The machine when the process starts: the static initialisers of the two
    C files. *)
Definition boot : machine :=
  mkMachine (mkConfig 0 0 0 false 0 false 0)
            (mkStatus VR_SYSTEM_INIT 0 0 0 0 false false)
            (mkPacket 0 (Some 0))
            false 0 0 0 0 0
            (F32.lit 33 10) (F32.lit 5 10) false
            (S754_zero false) 0 false [] ConnInvalid [].

(** A sequence of error reports, one call of [vr_error_handler] each. *)
Fixpoint report_errors (codes : list Z) : M unit :=
  match codes with
  | [] => ret tt
  | c :: rest => vr_error_handler c ;; report_errors rest
  end.

(** ** Derived notions used by the statements *)

(** The machine a computation ends with, whether it returned or stopped. *)
Definition final {A} (o : outcome A) : machine :=
  match o with Ret _ m => m | Fault _ m => m end.

(** The machine on which [vr_system_reset] calls [vr_embedded_init]: the
    three assignments that precede the call. *)
Definition reset_staged (m : machine) : machine :=
  with_status
    (set_state VR_SYSTEM_INIT
       (set_error_count 0
          (set_reset_count (wrap32 (reset_count (g_embedded_status m) + 1))
             (g_embedded_status m))))
    m.

(** The conditions the loop body evaluates, on the machine a pass starts
    from. *)

Definition telemetry_ready (m : machine) : bool :=
  communication_ready (g_embedded_status m) && g_connected m.

Definition tick_after (m : machine) : Z := wrap32 (g_system_tick m + 1).

Definition sensor_due (m : machine) : bool :=
  1000 / sensor_update_hz (g_embedded_config m) <=?
    wrap32 (tick_after m - g_last_sensor_update m).

Definition telemetry_due (m : machine) : bool :=
  1000 / telemetry_rate_hz (g_embedded_config m) <=?
    wrap32 (tick_after m - g_last_telemetry_send m).

Definition watchdog_due (m : machine) : bool :=
  watchdog_enabled (g_embedded_config m) &&
  (watchdog_timeout_ms (g_embedded_config m) / 2 <=?
     wrap32 (tick_after m - g_last_watchdog_feed m)).

(** A machine on which the tick handler takes neither of its error paths
    and neither rate is zero. *)
Definition quiet (m : machine) : Prop :=
  g_system_mutex m = false /\
  error_count (g_embedded_status m) <= 10 /\
  F32.ltb (g_system_voltage m) (F32.of_Z 3) = false /\
  sensor_update_hz (g_embedded_config m) <> 0 /\
  telemetry_rate_hz (g_embedded_config m) <> 0.

(** What a pass of the loop does to the watchdog: a pass that returns has
    fed it exactly when the feed was due at the tick the pass counted; a
    pass that stops early stops before the watchdog gate and has not fed
    it. *)
Definition feeds_when_due (m : machine) (o : outcome unit) : Prop :=
  match o with
  | Ret _ m' =>
      g_last_watchdog_feed m' =
        (if watchdog_timeout_ms (g_embedded_config m) / 2 <=?
              wrap32 (tick_after m - g_last_watchdog_feed m)
         then tick_after m else g_last_watchdog_feed m) /\
      last_watchdog_reset (g_embedded_status m') =
        (if watchdog_timeout_ms (g_embedded_config m) / 2 <=?
              wrap32 (tick_after m - g_last_watchdog_feed m)
         then tick_after m else last_watchdog_reset (g_embedded_status m))
  | Fault _ m' =>
      g_last_watchdog_feed m' = g_last_watchdog_feed m /\
      last_watchdog_reset (g_embedded_status m') =
        last_watchdog_reset (g_embedded_status m)
  end.

(** A gate with interval [I] that starts aligned at tick 0 fires at tick [k]
    exactly when [k] is a multiple of [I] (at every tick when [I = 0]):
    after [k] ticks it has fired [boundaries I k] times and the tick it last
    fired at is [last_fired I k]. *)

Definition boundaries (I k : Z) : Z := if I =? 0 then k else k / I.
Definition last_fired (I k : Z) : Z := if I =? 0 then k else I * (k / I).

(** Failed publishes in a run. *)
Definition failures (sink : list bool) : Z :=
  Z.of_nat (length (filter negb sink)).

(** The tick handler called [n] times on its own, as the timer interrupt it
    stands for would call it while the loop makes no progress. *)
Fixpoint timer_interrupts (n : nat) : M unit :=
  match n with
  | O => ret tt
  | S n' => vr_embedded_system_tick ;; timer_interrupts n'
  end.

(** *** Concrete machines *)

(** After [vr_embedded_init(NULL)] at process start, with a passing
    self-test ([rand()] returns 50) and a reachable broker. *)
Definition started : machine := final (vr_embedded_init None 50 true boot).

(** The same with a 300 Hz sensor rate (interval 3) and the telemetry rate
    above 1000 Hz (interval 0: due in every pass). *)
Definition eager_config : vr_embedded_config_t :=
  mkConfig 168000000 300 2000 true 5000 false 1.
Definition started_eager : machine :=
  final (vr_embedded_init (Some eager_config) 50 true boot).

(** The eager machine just after the tick counter has wrapped: the sensor
    gate last fired two ticks before the wrap and the counter is at 1. *)
Definition wrapped_eager : machine :=
  with_tick 1 (with_last_sensor_update (2 ^ 32 - 2) started_eager).

(** [started_eager] after [n] passes in each of which the publish failed. *)
Definition after_failed_sends (n : nat) : machine :=
  final (vr_embedded_main_loop (repeat false n) started_eager).

(** A value of [simulation_time] a little above 1010 s (about 1010.67),
    where [100.0f - simulation_time * 0.1f] is below -1; the accumulator,
    which grows by about 0.001 in every sensor update, is there after some
    1.02 million updates. *)
Definition late_simulation_time : f32 := S754_finite false 16558863 (-14).

(** ** The orientation quaternion of [vr_sensors_update], over the reals

    The three small-angle components and the reconstruction of [w].  A
    [float] is the real number it denotes; [rnd32] and [rnd64] stand for
    the rounding of a real result to binary32 and to binary64, and [fsin] for
    libm's [sin] on doubles.  The expressions keep the C evaluation order:
    the products inside [sin] are [float] products, [sin] and the
    multiplication by the amplitude are in double, and the assignment to the
    [float] field rounds once more. *)

Module Quaternion.

(** The real number [m * 2^-e]; binary32 holds every such number with
    [|m| <= 2^24] and [e <= 149]. *)
Definition f32_value (m : Z) (e : nat) : R := (IZR m / 2 ^ e)%R.

(** The literals [0.05f], [0.1f], [0.15f] and [0.2f]. *)
Definition c_0_05 : R := f32_value 13421773 28.
Definition c_0_1 : R := f32_value 13421773 27.
Definition c_0_15 : R := f32_value 10066330 26.
Definition c_0_2 : R := f32_value 13421773 26.

Section Synthesis.
Local Open Scope R_scope.
Variables rnd32 rnd64 fsin : R -> R.

Definition orientation_x (t : R) : R :=
  rnd32 (rnd64 (fsin (rnd32 (t * c_0_2)) * c_0_1)).
Definition orientation_y (t : R) : R :=
  rnd32 (rnd64 (fsin (rnd32 (t * c_0_15)) * c_0_2)).
Definition orientation_z (t : R) : R :=
  rnd32 (rnd64 (fsin (rnd32 (t * c_0_1)) * c_0_05)).

(** The argument of [sqrt]: [1.0f - (x*x + y*y + z*z)] in [float]
    arithmetic. *)
Definition radicand (t : R) : R :=
  rnd32 (1 - rnd32 (rnd32 (rnd32 (orientation_x t * orientation_x t) +
                           rnd32 (orientation_y t * orientation_y t)) +
                    rnd32 (orientation_z t * orientation_z t))).

Definition orientation_w (t : R) : R := rnd32 (rnd64 (sqrt (radicand t))).

End Synthesis.

(** What the bounds need of a rounding: it is monotone and leaves the
    binary32 numbers where they are. *)
Definition monotone (rnd : R -> R) : Prop :=
  forall x y : R, (x <= y)%R -> (rnd x <= rnd y)%R.
Definition keeps_binary32 (rnd : R -> R) : Prop :=
  forall (m : Z) (e : nat),
    (Z.abs m <= 2 ^ 24)%Z -> (e <= 149)%nat ->
    rnd (f32_value m e) = f32_value m e.

End Quaternion.

(** ** The other synthesised values, over the reals *)

Module Synthesizer.
Import Quaternion.

(** The literals [0.3f], [0.4f], [0.6f] and [0.8f]. *)
Definition c_0_3 : R := f32_value 10066330 25.
Definition c_0_4 : R := f32_value 13421773 25.
Definition c_0_6 : R := f32_value 10066330 24.
Definition c_0_8 : R := f32_value 13421773 24.

Section Values.
Local Open Scope R_scope.
Variables rnd32 rnd64 fsin fcos : R -> R.

(** System metrics of [vr_sensors_update]. *)
Definition cpu_usage (t : R) : R :=
  rnd32 (rnd64 (45 + rnd64 (fsin (rnd32 (t * c_0_8)) * 10))).
Definition gpu_usage (t : R) : R :=
  rnd32 (rnd64 (60 + rnd64 (fcos (rnd32 (t * c_0_6)) * 15))).
Definition temperature (t : R) : R :=
  rnd32 (35 + rnd32 (rnd32 (cpu_usage t + gpu_usage t) * c_0_1)).

(** Eye and hand tracking of [vr_sensors_update]: the left eye's gaze and
    pupil, and the grip strength (the same expression for both hands). *)
Definition left_eye_x (t : R) : R :=
  rnd32 (rnd64 (1 / 2 + rnd64 (fsin (rnd32 (t * 2)) * c_0_1))).
Definition left_eye_y (t : R) : R :=
  rnd32 (rnd64 (1 / 2 + rnd64 (fcos (rnd32 (t * (3 / 2))) * c_0_1))).
Definition pupil_diameter (t : R) : R :=
  rnd32 (rnd64 (7 / 2 + rnd64 (fsin (rnd32 (t * (1 / 2))) * (1 / 2)))).
Definition grip_strength (t : R) : R :=
  rnd32 (rnd64 (1 / 2 + rnd64 (fsin (rnd32 (t * c_0_4)) * c_0_3))).

(** [vr_generate_sine_wave]; [m_pi] is the double [M_PI]. *)
Definition vr_generate_sine_wave (m_pi time frequency amplitude : R) : R :=
  rnd32 (rnd64 (amplitude *
                fsin (rnd64 (rnd64 (rnd64 (2 * m_pi) * frequency) * time)))).

(** [((float)rand() / RAND_MAX - 0.5f) * 2.0f * level], the perturbation of
    [vr_add_sensor_noise] and [vr_generate_random_walk]; [r] is what
    [rand()] returns. *)
Definition perturbation (RAND_MAX r : Z) (level : R) : R :=
  rnd32 (rnd32 (rnd32 (rnd32 (rnd32 (IZR r) / rnd32 (IZR RAND_MAX)) - 1 / 2)
                * 2)
         * level).

(** A [float *] argument is [None] when the pointer is null, and the cell
    it points to otherwise; the result is the cell after the call. *)
Definition vr_add_sensor_noise (RAND_MAX r : Z) (value : option R)
           (noise_level : R) : option R :=
  match value with
  | None => None
  | Some v => Some (rnd32 (v + perturbation RAND_MAX r noise_level))
  end.

(** Returns the value and the cell after the call. *)
Definition vr_generate_random_walk (RAND_MAX r : Z) (last_value : option R)
           (max_change : R) : R * option R :=
  match last_value with
  | None => (0, None)
  | Some v =>
      let v' := rnd32 (v + perturbation RAND_MAX r max_change) in
      (v', Some v')
  end.

End Values.
End Synthesizer.

(** ** Further functions of the C files *)



Definition vr_power_wake_up : M unit := modify (with_power_save_active false).

Definition vr_power_get_voltage : M f32 :=
  m <- get ;; ret (g_system_voltage m).

Definition vr_power_get_current : M f32 :=
  m <- get ;; ret (g_system_current m).

Definition vr_watchdog_disable : M unit := ret tt.

Definition vr_get_error_count : M Z :=
  m <- get ;; ret (error_count (g_embedded_status m)).

Definition vr_get_system_tick : M Z :=
  m <- get ;; ret (g_system_tick m).



(** The start of [main] (main.c) once the options are parsed: the
    initialisation, then, unless [-n] was given, the connection to the
    broker named on the command line.  [Some 1] is [return 1]; [None] is
    reaching the loop.  [local_broker_ok] answers the connection
    [vr_telemetry_init] makes with its built-in parameters during the
    initialisation, [cli_broker_ok] the one [main] makes. *)
Definition main_startup (config : vr_embedded_config_t) (use_rabbitmq : bool)
           (rand_value : Z) (local_broker_ok cli_broker_ok : bool)
  : M (option Z) :=
  vr_embedded_init (Some config) rand_value local_broker_ok ;;
  if use_rabbitmq
  then r <- vr_rabbitmq_init cli_broker_ok ;;
       if negb (r =? 0) then ret (Some 1) else ret None
  else ret None.

(** [vr_sensors_update] called [n] times in a row. *)
Fixpoint sensor_updates (n : nat) : M unit :=
  match n with
  | O => ret tt
  | S n' => vr_sensors_update ;; sensor_updates n'
  end.

(** ** Proof support *)

#[global] Arguments F32.ltb : simpl never.
#[global] Arguments F32.of_Z : simpl never.
#[global] Arguments F32.lit : simpl never.
#[global] Arguments F32.add : simpl never.
#[global] Arguments F32.sub : simpl never.
#[global] Arguments F32.mul : simpl never.
#[global] Arguments wrap32 : simpl never.
#[global] Arguments wrap8 : simpl never.

Ltac unfold_monad :=
  cbv [bind ret get modify raise when modify_status printf
       pthread_mutex_lock pthread_mutex_unlock].

(** Closed facts about the concrete machines, by evaluation. *)
Ltac by_computation :=
  vm_compute; repeat split; solve [reflexivity | discriminate].

Lemma wrap32_range x : 0 <= wrap32 x < 2 ^ 32.
Proof. unfold wrap32. apply Z.mod_pos_bound. lia. Qed.

Lemma wrap32_small x : 0 <= x < 2 ^ 32 -> wrap32 x = x.
Proof. intros H. unfold wrap32. apply Z.mod_small. exact H. Qed.

Lemma wrap32_add_l x y : wrap32 (wrap32 x + y) = wrap32 (x + y).
Proof. unfold wrap32. apply Zplus_mod_idemp_l. Qed.

(** ** The error/state machine *)

Lemma vr_embedded_set_state_free s m :
  g_system_mutex m = false ->
  vr_embedded_set_state s m =
    Ret tt (with_mutex false
             (with_console (LogStateChanged s :: console m)
               (with_status (set_state s (g_embedded_status m))
                 (with_mutex true m)))).
Proof.
  intros Hfree. unfold vr_embedded_set_state. unfold_monad.
  rewrite Hfree. reflexivity.
Qed.

Lemma vr_embedded_set_state_held s m :
  g_system_mutex m = true ->
  vr_embedded_set_state s m = Fault Deadlock m.
Proof.
  intros Hheld. unfold vr_embedded_set_state. unfold_monad.
  rewrite Hheld. reflexivity.
Qed.

(** One report with the mutex free: the counter goes up by one (modulo
    2^32) and the state becomes [VR_SYSTEM_ERROR] exactly when the new count
    is above 5. *)
Lemma vr_error_handler_free code m :
  g_system_mutex m = false ->
  exists m',
    vr_error_handler code m = Ret tt m' /\
    error_count (g_embedded_status m') =
      wrap32 (error_count (g_embedded_status m) + 1) /\
    state (g_embedded_status m') =
      (if 5 <? error_count (g_embedded_status m')
       then VR_SYSTEM_ERROR else state (g_embedded_status m)) /\
    reset_count (g_embedded_status m') = reset_count (g_embedded_status m) /\
    g_system_mutex m' = false.
Proof.
  intros Hfree. unfold vr_error_handler, vr_embedded_set_state. unfold_monad.
  cbn.
  destruct (5 <? wrap32 (error_count (g_embedded_status m) + 1)) eqn:Hgt;
    cbn; rewrite ?Hfree; cbn;
    eexists; (split; [reflexivity|]); cbn; rewrite ?Hgt; auto.
Qed.

(** C1 (as amended): with the mutex free, every report of a sequence of
    error reports returns and adds one to the error counter (modulo 2^32);
    the report that takes the counter above 5, that is to 6, is the one that
    forces the state to [VR_SYSTEM_ERROR], while a sequence that leaves the
    counter at 5 or below leaves the state as it was; and once the state is
    [VR_SYSTEM_ERROR] no further report changes it. *)
Theorem error_reports_escalate_above_five :
  forall (codes : list Z) (m : machine),
    g_system_mutex m = false ->
    u32 (error_count (g_embedded_status m)) ->
    exists m',
      report_errors codes m = Ret tt m' /\
      g_system_mutex m' = false /\
      error_count (g_embedded_status m') =
        wrap32 (error_count (g_embedded_status m) + Z.of_nat (length codes)) /\
      (state (g_embedded_status m) = VR_SYSTEM_ERROR ->
       state (g_embedded_status m') = VR_SYSTEM_ERROR) /\
      (error_count (g_embedded_status m) + Z.of_nat (length codes) < 2 ^ 32 ->
       codes <> [] ->
       5 < error_count (g_embedded_status m) + Z.of_nat (length codes) ->
       state (g_embedded_status m') = VR_SYSTEM_ERROR) /\
      (error_count (g_embedded_status m) + Z.of_nat (length codes) <= 5 ->
       state (g_embedded_status m') = state (g_embedded_status m)).
Proof.
  induction codes as [|c rest IH]; intros m Hfree Hu32.
  - exists m. cbn [report_errors length Z.of_nat]. unfold ret.
    rewrite Z.add_0_r, (wrap32_small _ Hu32).
    repeat split; auto. intros _ Hne. now contradiction Hne.
  - destruct (vr_error_handler_free c m Hfree)
      as (m1 & Hrun1 & Hcount1 & Hstate1 & _ & Hfree1).
    destruct (IH m1 Hfree1) as (m' & Hrun & Hfree' & Hcount & Herr & Hup & Hlow).
    { rewrite Hcount1. apply wrap32_range. }
    exists m'. cbn [report_errors]. unfold bind at 1. rewrite Hrun1.
    split; [exact Hrun|]. split; [exact Hfree'|].
    assert (Hlen : Z.of_nat (length (c :: rest)) = 1 + Z.of_nat (length rest))
      by (cbn [length]; lia).
    rewrite Hlen. clear Hlen.
    split; [|split; [|split]].
    + rewrite Hcount, Hcount1, wrap32_add_l. f_equal. lia.
    + intros Hm. apply Herr. rewrite Hstate1, Hm.
      now destruct (5 <? _).
    + intros Hbound _ Hgt.
      assert (Hc1 : error_count (g_embedded_status m1) =
                    error_count (g_embedded_status m) + 1).
      { rewrite Hcount1. apply wrap32_small. unfold u32 in Hu32. lia. }
      destruct rest as [|c' rest'].
      * cbn [length Z.of_nat] in *. apply Herr. rewrite Hstate1.
        replace (5 <? error_count (g_embedded_status m1)) with true; auto.
        symmetry. apply Z.ltb_lt. lia.
      * apply Hup; [lia|discriminate|lia].
    + intros Hle.
      assert (Hc1 : error_count (g_embedded_status m1) =
                    error_count (g_embedded_status m) + 1).
      { rewrite Hcount1. apply wrap32_small. unfold u32 in Hu32. lia. }
      rewrite Hlow by lia. rewrite Hstate1.
      replace (5 <? error_count (g_embedded_status m1)) with false; auto.
      symmetry. apply Z.ltb_ge. lia.
Qed.

(** The telemetry path when it is not ready. *)

(** C10: when the communication-ready flag is false or the broker is not
    connected, [vr_telemetry_send_packet] returns the machine it was given,
    whatever the broker would have answered: [amqp_basic_publish] is not
    called (the record of effects is as it was), the error counter and every
    other field are unchanged and nothing is printed.  When the path is
    ready the call does publish: one publish of the packet is added to the
    record. *)
Theorem vr_telemetry_send_packet_not_ready :
  forall (publish_ok : bool) (m : machine),
    (communication_ready (g_embedded_status m) = false \/
     g_connected m = false ->
     vr_telemetry_send_packet publish_ok m = Ret tt m /\
     effects (final (vr_telemetry_send_packet publish_ok m)) = effects m /\
     g_embedded_status (final (vr_telemetry_send_packet publish_ok m)) =
       g_embedded_status m /\
     console (final (vr_telemetry_send_packet publish_ok m)) = console m) /\
    (communication_ready (g_embedded_status m) = true ->
     g_connected m = true ->
     exists m',
       vr_telemetry_send_packet publish_ok m = Ret tt m' /\
       effects m' =
         EffPublish (g_conn m) (frame_id (g_telemetry_packet m)) publish_ok
           :: effects m).
Proof.
  intros publish_ok m. split.
  - intros Hnot.
    assert (Hrun : vr_telemetry_send_packet publish_ok m = Ret tt m).
    { unfold vr_telemetry_send_packet, vr_telemetry_is_ready,
        vr_rabbitmq_is_connected.
      unfold_monad.
      destruct (communication_ready (g_embedded_status m)) eqn:Hready; cbn.
      - destruct Hnot as [Hnot|Hnot]; [discriminate|].
        rewrite Hnot. reflexivity.
      - reflexivity. }
    rewrite Hrun. cbn [final]. auto.
  - intros Hready Hconn.
    unfold vr_telemetry_send_packet, vr_telemetry_is_ready,
      vr_rabbitmq_is_connected, vr_rabbitmq_send_telemetry, perform.
    unfold_monad. rewrite Hready. cbn. rewrite Hconn. cbn.
    rewrite ?Hconn. cbn.
    destruct publish_ok; cbn; eexists; (split; [reflexivity|]); reflexivity.
Qed.

(** ** Initialisation and reset *)

(** What [vr_embedded_init] leaves behind when it is entered with the mutex
    free. *)
Lemma vr_embedded_init_free config rand_value broker_ok m :
  g_system_mutex m = false ->
  exists m',
    vr_embedded_init config rand_value broker_ok m = Ret tt m' /\
    state (g_embedded_status m') = VR_SYSTEM_READY /\
    sensors_initialized (g_embedded_status m') = true /\
    communication_ready (g_embedded_status m') = true /\
    error_count (g_embedded_status m') =
      (if vr_sensors_self_test rand_value then 0 else 1) /\
    reset_count (g_embedded_status m') = 0 /\
    g_embedded_config m' =
      match config with Some c => c | None => default_config end /\
    g_system_mutex m' = false.
Proof.
  intros Hfree.
  unfold vr_embedded_init, vr_sensors_init, vr_error_handler, vr_power_init,
    vr_watchdog_init, vr_telemetry_init, vr_rabbitmq_init.
  unfold_monad. rewrite Hfree. cbn.
  destruct (vr_sensors_self_test rand_value); cbn;
    try change (wrap32 1) with 1; cbn;
    destruct config as [c|]; cbn;
    try destruct (watchdog_enabled c); cbn;
    destruct broker_ok; cbn;
    eexists; (split; [reflexivity|]); cbn; auto 10.
Qed.

(** C7 (as amended): called with the mutex free, [vr_embedded_init] returns
    with the state [VR_SYSTEM_READY] and both readiness flags set whether
    the sensor self-test passed or failed; a failed self-test only leaves
    the error counter at 1 instead of 0. *)
Theorem vr_embedded_init_ends_ready :
  forall (config : option vr_embedded_config_t) (rand_value : Z)
         (broker_ok : bool) (m : machine),
    g_system_mutex m = false ->
    exists m',
      vr_embedded_init config rand_value broker_ok m = Ret tt m' /\
      state (g_embedded_status m') = VR_SYSTEM_READY /\
      sensors_initialized (g_embedded_status m') = true /\
      communication_ready (g_embedded_status m') = true /\
      error_count (g_embedded_status m') =
        (if vr_sensors_self_test rand_value then 0 else 1).
Proof.
  intros config rand_value broker_ok m Hfree.
  destruct (vr_embedded_init_free config rand_value broker_ok m Hfree)
    as (m' & Hrun & Hstate & Hsens & Hcomm & Hcount & _).
  exists m'. auto.
Qed.

(** C2, the reset: [vr_system_reset] counts the reset, zeroes the error
    counter and sets the state to [VR_SYSTEM_INIT] ([reset_staged]), and then
    runs [vr_embedded_init] on that machine, which clears the whole status
    record again: the call returns with the reset counter at 0 whatever it
    was before, the state [VR_SYSTEM_READY], the configuration unchanged
    and the error counter at 0 (at 1 when the self-test of the
    re-initialisation fails). *)
Theorem vr_system_reset_clears_reset_count :
  forall (rand_value : Z) (broker_ok : bool) (m : machine),
    g_system_mutex m = false ->
    vr_system_reset rand_value broker_ok m =
      vr_embedded_init (Some (g_embedded_config m)) rand_value broker_ok
                       (reset_staged m) /\
    state (g_embedded_status (reset_staged m)) = VR_SYSTEM_INIT /\
    error_count (g_embedded_status (reset_staged m)) = 0 /\
    reset_count (g_embedded_status (reset_staged m)) =
      wrap32 (reset_count (g_embedded_status m) + 1) /\
    exists m',
      vr_system_reset rand_value broker_ok m = Ret tt m' /\
      reset_count (g_embedded_status m') = 0 /\
      error_count (g_embedded_status m') =
        (if vr_sensors_self_test rand_value then 0 else 1) /\
      state (g_embedded_status m') = VR_SYSTEM_READY /\
      g_embedded_config m' = g_embedded_config m.
Proof.
  intros rand_value broker_ok m Hfree.
  assert (Hstaged :
    vr_system_reset rand_value broker_ok m =
      vr_embedded_init (Some (g_embedded_config m)) rand_value broker_ok
                       (reset_staged m)) by reflexivity.
  split; [exact Hstaged|]. repeat (split; [reflexivity|]).
  destruct (vr_embedded_init_free (Some (g_embedded_config m)) rand_value
              broker_ok (reset_staged m) Hfree)
    as (m' & Hrun & Hstate & _ & _ & Hcount & Hreset & Hcfg & _).
  exists m'. rewrite Hstaged. auto.
Qed.

(** ** The tick handler and the mutex *)

(** With the mutex held, a report that takes the counter above 5 stops in
    the lock of [vr_embedded_set_state]. *)
Lemma vr_error_handler_held code m :
  g_system_mutex m = true ->
  5 < wrap32 (error_count (g_embedded_status m) + 1) ->
  exists m', vr_error_handler code m = Fault Deadlock m' /\
             g_system_mutex m' = true.
Proof.
  intros Hheld Hgt. unfold vr_error_handler, vr_embedded_set_state.
  unfold_monad. cbn.
  apply Z.ltb_lt in Hgt. rewrite Hgt. cbn. rewrite Hheld.
  eexists. split; [reflexivity|]. exact Hheld.
Qed.

(** C8, at the failing inputs: a tick that finds more than 10 errors
    recorded takes the mutex and, still holding it, calls
    [vr_embedded_set_state], whose own lock of the same mutex never
    returns. *)
Theorem vr_embedded_system_tick_relocks :
  forall m : machine,
    g_system_mutex m = false ->
    10 < error_count (g_embedded_status m) ->
    exists m',
      vr_embedded_system_tick m = Fault Deadlock m' /\
      g_system_mutex m' = true /\
      state (g_embedded_status m') = state (g_embedded_status m).
Proof.
  intros m Hfree Hgt.
  unfold vr_embedded_system_tick, vr_embedded_set_state. unfold_monad.
  rewrite Hfree. cbn.
  apply Z.ltb_lt in Hgt. rewrite Hgt. cbn.
  eexists. split; [reflexivity|]. cbn. auto.
Qed.

(** ** The scheduler *)

Lemma main_loop_body_quiet publish_ok m :
  quiet m ->
  exists m',
    main_loop_body publish_ok m = Ret tt m' /\
    g_system_tick m' = tick_after m /\
    g_embedded_config m' = g_embedded_config m /\
    g_system_voltage m' = g_system_voltage m /\
    g_system_mutex m' = false /\
    g_connected m' = g_connected m /\
    communication_ready (g_embedded_status m') =
      communication_ready (g_embedded_status m) /\
    state (g_embedded_status m') = state (g_embedded_status m) /\
    reset_count (g_embedded_status m') = reset_count (g_embedded_status m) /\
    uptime_ms (g_embedded_status m') = tick_after m /\
    g_last_sensor_update m' =
      (if sensor_due m then tick_after m else g_last_sensor_update m) /\
    frame_counter m' =
      (if sensor_due m then wrap32 (frame_counter m + 1)
       else frame_counter m) /\
    g_last_telemetry_send m' =
      (if telemetry_due m then tick_after m else g_last_telemetry_send m) /\
    error_count (g_embedded_status m') =
      (if telemetry_due m && telemetry_ready m && negb publish_ok
       then wrap32 (error_count (g_embedded_status m) + 1)
       else error_count (g_embedded_status m)) /\
    console m' =
      (if telemetry_due m && telemetry_ready m && negb publish_ok
       then LogSendFailed (wrap32 (error_count (g_embedded_status m) + 1))
              :: console m
       else console m) /\
    g_last_watchdog_feed m' =
      (if watchdog_due m then tick_after m else g_last_watchdog_feed m) /\
    last_watchdog_reset (g_embedded_status m') =
      (if watchdog_due m then tick_after m
       else last_watchdog_reset (g_embedded_status m)).
Proof.
  intros (Hfree & Hcount & Hvolt & Hsr & Htr).
  unfold sensor_due, telemetry_due, watchdog_due, telemetry_ready, tick_after.
  unfold main_loop_body, vr_embedded_system_tick, sensor_gate, telemetry_gate,
    watchdog_gate, power_gate, rate_interval, vr_sensors_update,
    vr_telemetry_send_packet, vr_telemetry_is_ready, vr_rabbitmq_is_connected,
    vr_rabbitmq_send_telemetry, vr_watchdog_feed, vr_power_enter_sleep.
  unfold_monad. rewrite Hfree. cbn.
  apply Z.ltb_ge in Hcount. rewrite Hcount. cbn. rewrite Hvolt. cbn.
  apply Z.eqb_neq in Hsr, Htr.
  repeat (cbn; rewrite ?Hsr, ?Htr;
          match goal with
          | |- exists m', ?run = _ /\ _ =>
              match run with
              | context [if negb ?c then _ else _] => destruct c eqn:?
              | context [if ?a && _ then _ else _] => destruct a eqn:?
              | context [if ?c then _ else _] => destruct c eqn:?
              end
          end).
  all: try congruence.
  all: cbn; eexists; (split; [reflexivity|]); cbn.
  all: repeat match goal with H : _ = _ |- _ => rewrite H end; cbn.
  all: try (destruct publish_ok; cbn); auto 20.
Qed.

Lemma gate_step (I k : Z) :
  0 <= I -> 0 <= k -> k + 1 < 2 ^ 32 ->
  (if I <=? wrap32 (wrap32 (k + 1) - last_fired I k)
   then boundaries I (k + 1) = boundaries I k + 1 /\
        last_fired I (k + 1) = wrap32 (k + 1)
   else boundaries I (k + 1) = boundaries I k /\
        last_fired I (k + 1) = last_fired I k).
Proof.
  intros HI Hk Hbound.
  rewrite (wrap32_small (k + 1)) by lia.
  unfold boundaries, last_fired.
  destruct (Z.eqb_spec I 0) as [->|Hnz].
  - rewrite wrap32_small by lia.
    replace (0 <=? k + 1 - k) with true by (symmetry; apply Z.leb_le; lia).
    split; reflexivity.
  - assert (Hpos : 0 < I) by lia.
    pose proof (Z.div_mod k I Hnz) as Hdm.
    pose proof (Z.mod_pos_bound k I Hpos) as Hmod.
    assert (Hdiv : 0 <= k / I) by (apply Z.div_pos; lia).
    rewrite wrap32_small by nia.
    destruct (Z.leb_spec I (k + 1 - I * (k / I))) as [Hdue|Hwait].
    + assert (Hq : (k + 1) / I = k / I + 1).
      { symmetry. apply (Z.div_unique_pos (k + 1) I (k / I + 1) 0); lia. }
      rewrite Hq. split; lia.
    + assert (Hq : (k + 1) / I = k / I).
      { symmetry. apply (Z.div_unique_pos (k + 1) I (k / I) (k mod I + 1)); lia. }
      rewrite Hq. split; reflexivity.
Qed.

Lemma failures_cons ok sink :
  failures (ok :: sink) = (if ok then 0 else 1) + failures sink.
Proof. unfold failures. destruct ok; cbn [filter negb length]; lia. Qed.

Lemma failures_nonneg sink : 0 <= failures sink.
Proof. unfold failures. lia. Qed.

(** A run of the loop that stays clear of the two error guards of the tick
    handler: the sensor gate and the watchdog gate keep their cadence. *)
Lemma main_loop_schedule :
  forall (sink : list bool) (m : machine) (k f0 : Z),
    quiet m ->
    0 <= error_count (g_embedded_status m) ->
    error_count (g_embedded_status m) + failures sink <= 10 ->
    0 < sensor_update_hz (g_embedded_config m) ->
    g_system_tick m = k -> 0 <= k ->
    k + Z.of_nat (length sink) < 2 ^ 32 ->
    g_last_sensor_update m =
      last_fired (1000 / sensor_update_hz (g_embedded_config m)) k ->
    exists m',
      vr_embedded_main_loop sink m = Ret tt m' /\
      g_embedded_config m' = g_embedded_config m /\
      state (g_embedded_status m') = state (g_embedded_status m) /\
      g_system_tick m' = k + Z.of_nat (length sink) /\
      g_last_sensor_update m' =
        last_fired (1000 / sensor_update_hz (g_embedded_config m))
                   (k + Z.of_nat (length sink)) /\
      (frame_counter m =
         wrap32 (f0 + boundaries (1000 / sensor_update_hz (g_embedded_config m))
                                 k) ->
       frame_counter m' =
         wrap32 (f0 + boundaries (1000 / sensor_update_hz (g_embedded_config m))
                                 (k + Z.of_nat (length sink)))) /\
      (watchdog_enabled (g_embedded_config m) = true ->
       0 <= watchdog_timeout_ms (g_embedded_config m) ->
       g_last_watchdog_feed m =
         last_fired (watchdog_timeout_ms (g_embedded_config m) / 2) k ->
       last_watchdog_reset (g_embedded_status m) =
         last_fired (watchdog_timeout_ms (g_embedded_config m) / 2) k ->
       g_last_watchdog_feed m' =
         last_fired (watchdog_timeout_ms (g_embedded_config m) / 2)
                    (k + Z.of_nat (length sink)) /\
       last_watchdog_reset (g_embedded_status m') =
         last_fired (watchdog_timeout_ms (g_embedded_config m) / 2)
                    (k + Z.of_nat (length sink))).
Proof.
  induction sink as [|ok rest IH];
    intros m k f0 Hquiet Hec0 Hec Hrate Htick Hk Hbound Hls.
  - exists m. cbn [vr_embedded_main_loop length Z.of_nat]. unfold ret.
    rewrite Z.add_0_r. repeat split; auto.
  - destruct (main_loop_body_quiet ok m Hquiet)
      as (m1 & Hrun1 & Htick1 & Hcfg1 & Hvolt1 & Hfree1 & Hconn1 & Hcr1 &
          Hstate1 & _ & _ & Hls1 & Hfc1 & _ & Hec1 & _ & Hwf1 & Hwr1).
    destruct Hquiet as (Hfree & Hq10 & Hvolt & Hsr & Htr).
    rewrite failures_cons in Hec. pose proof (failures_nonneg rest) as Hfr.
    assert (Hlen : Z.of_nat (length (ok :: rest)) = 1 + Z.of_nat (length rest))
      by (cbn [length]; lia).
    rewrite Hlen in *. clear Hlen.
    set (Is := 1000 / sensor_update_hz (g_embedded_config m)) in *.
    set (W := watchdog_timeout_ms (g_embedded_config m) / 2) in *.
    assert (HIs : 0 <= Is) by (apply Z.div_pos; lia).
    assert (Hta : tick_after m = k + 1).
    { unfold tick_after. rewrite Htick. apply wrap32_small. lia. }
    assert (Hec1' : 0 <= error_count (g_embedded_status m1) /\
                    error_count (g_embedded_status m1) + failures rest <= 10).
    { rewrite Hec1.
      destruct (telemetry_due m && telemetry_ready m && negb ok) eqn:Hfail.
      - destruct ok; [now rewrite !andb_false_r in Hfail|].
        rewrite wrap32_small by lia. lia.
      - destruct ok; lia. }
    pose proof (gate_step Is k HIs Hk ltac:(lia)) as Hstep.
    unfold sensor_due in Hls1, Hfc1. fold Is in Hls1, Hfc1.
    rewrite Hta, Hls in Hls1, Hfc1.
    rewrite (wrap32_small (k + 1)) in Hstep by lia.
    destruct (IH m1 (k + 1) f0) as
      (m' & Hrun & Hcfg' & Hstate' & Htick' & Hls' & Hfc' & Hwd').
    + repeat split; try assumption; rewrite ?Hcfg1; try assumption.
      * lia.
      * rewrite Hvolt1. exact Hvolt.
    + lia.
    + lia.
    + rewrite Hcfg1. exact Hrate.
    + rewrite Htick1. exact Hta.
    + lia.
    + lia.
    + rewrite Hcfg1. fold Is. rewrite Hls1.
      destruct (Is <=? wrap32 (k + 1 - last_fired Is k));
        destruct Hstep as [_ Hl]; rewrite Hl; reflexivity.
    + exists m'. cbn [vr_embedded_main_loop]. unfold bind at 1. rewrite Hrun1.
      rewrite Hcfg1 in *. fold Is W in Hls', Hfc', Hwd'.
      replace (k + (1 + Z.of_nat (length rest)))
        with (k + 1 + Z.of_nat (length rest)) by lia.
      split; [exact Hrun|]. split; [exact Hcfg'|].
      split; [congruence|]. split; [exact Htick'|].
      split; [exact Hls'|]. split.
      { intros Hfc. apply Hfc'. rewrite Hfc1.
        destruct (Is <=? wrap32 (k + 1 - last_fired Is k));
          destruct Hstep as [Hb _]; rewrite Hb; [|exact Hfc].
        rewrite Hfc, wrap32_add_l. f_equal. lia. }
      intros Hen Htimeout Hwf Hwr.
      assert (HW : 0 <= W) by (apply Z.div_pos; lia).
      pose proof (gate_step W k HW Hk ltac:(lia)) as HstepW.
      rewrite (wrap32_small (k + 1)) in HstepW by lia.
      unfold watchdog_due in Hwf1, Hwr1. fold W in Hwf1, Hwr1.
      rewrite Hen, Hta, Hwf in Hwf1, Hwr1. cbn [andb] in Hwf1, Hwr1.
      apply Hwd'; try assumption.
      * rewrite Hwf1.
        destruct (W <=? wrap32 (k + 1 - last_fired W k));
          destruct HstepW as [_ Hl]; rewrite Hl; auto.
      * rewrite Hwr1.
        destruct (W <=? wrap32 (k + 1 - last_fired W k));
          destruct HstepW as [_ Hl]; rewrite Hl; auto.
Qed.

(** X20: on a run of at most 10000 passes that starts at tick 0 and stays
    clear of the tick handler's error guards (mutex free, voltage not below
    3.0, telemetry rate not zero, at most 10 errors counted by the end of
    the run), a sensor rate [r] in [1, 1000] gives the interval
    [1000 / r], the integer quotient (at least one tick), and after
    [n] passes [vr_sensors_update] has run [n / (1000 / r)] times, the last
    time at tick [(1000 / r) * (n / (1000 / r))]: once at each multiple of
    the interval and at no other tick.  A rate above 1000 gives the
    interval 0 and one sensor update in every pass. *)
Theorem sensor_gate_fires_once_per_interval :
  forall (sink : list bool) (m : machine),
    quiet m ->
    0 <= error_count (g_embedded_status m) ->
    error_count (g_embedded_status m) + failures sink <= 10 ->
    g_system_tick m = 0 ->
    g_last_sensor_update m = 0 ->
    u32 (frame_counter m) ->
    Z.of_nat (length sink) <= 10000 ->
    (1 <= sensor_update_hz (g_embedded_config m) <= 1000 ->
     rate_interval (sensor_update_hz (g_embedded_config m)) m =
       Ret (1000 / sensor_update_hz (g_embedded_config m)) m /\
     1 <= 1000 / sensor_update_hz (g_embedded_config m) /\
     exists m',
       vr_embedded_main_loop sink m = Ret tt m' /\
       g_system_tick m' = Z.of_nat (length sink) /\
       frame_counter m' =
         wrap32 (frame_counter m +
                 Z.of_nat (length sink) /
                   (1000 / sensor_update_hz (g_embedded_config m))) /\
       g_last_sensor_update m' =
         1000 / sensor_update_hz (g_embedded_config m) *
           (Z.of_nat (length sink) /
              (1000 / sensor_update_hz (g_embedded_config m)))) /\
    (1000 < sensor_update_hz (g_embedded_config m) ->
     1000 / sensor_update_hz (g_embedded_config m) = 0 /\
     exists m',
       vr_embedded_main_loop sink m = Ret tt m' /\
       g_system_tick m' = Z.of_nat (length sink) /\
       frame_counter m' = wrap32 (frame_counter m + Z.of_nat (length sink)) /\
       g_last_sensor_update m' = Z.of_nat (length sink)).
Proof.
  intros sink m Hquiet Hec0 Hec Htick Hlast Hfc Hlen.
  set (r := sensor_update_hz (g_embedded_config m)).
  assert (Hrun : 0 < r ->
    exists m',
      vr_embedded_main_loop sink m = Ret tt m' /\
      g_system_tick m' = Z.of_nat (length sink) /\
      g_last_sensor_update m' = last_fired (1000 / r) (Z.of_nat (length sink)) /\
      frame_counter m' =
        wrap32 (frame_counter m + boundaries (1000 / r) (Z.of_nat (length sink)))).
  { intros Hr.
    destruct (main_loop_schedule sink m 0 (frame_counter m))
      as (m' & Hrun & _ & _ & Htick' & Hls' & Hfc' & _); try assumption; try lia.
    - rewrite Hlast. unfold last_fired.
      destruct (_ =? 0); [reflexivity|]. rewrite Zdiv_0_l. lia.
    - exists m'. fold r in Hls', Hfc'. rewrite Z.add_0_l in *.
      repeat split; try assumption. apply Hfc'.
      unfold boundaries.
      destruct (_ =? 0); [|rewrite Zdiv_0_l];
        rewrite Z.add_0_r; symmetry; apply wrap32_small; exact Hfc. }
  split; intros Hr.
  - assert (Hint : 1 <= 1000 / r) by (apply Z.div_le_lower_bound; lia).
    split.
    { unfold rate_interval. fold r.
      destruct (Z.eqb_spec r 0); [lia|reflexivity]. }
    split; [exact Hint|].
    destruct Hrun as (m' & Hrun & Htick' & Hls' & Hfc'); [lia|].
    exists m'. unfold last_fired, boundaries in *.
    destruct (Z.eqb_spec (1000 / r) 0); [lia|]. auto.
  - assert (Hint : 1000 / r = 0) by (apply Z.div_small; lia).
    split; [exact Hint|].
    destruct Hrun as (m' & Hrun & Htick' & Hls' & Hfc'); [lia|].
    exists m'. unfold last_fired, boundaries in *.
    rewrite Hint in *. cbn in Hls', Hfc'. auto.
Qed.

(** C4: the 10000-pass run the claim speaks of does not complete when every
    publish fails.  From the started machine (default configuration:
    sensor rate 1000 Hz, interval 1 tick; telemetry rate 60 Hz) each due
    telemetry pass counts one error; the eleventh is counted at tick 176,
    and the tick handler of the next pass, seeing more than 10 errors,
    locks the mutex it already holds.  The run stops there, in tick 177,
    after 176 sensor updates instead of 10000, with the state still
    [VR_SYSTEM_READY]. *)
Theorem failing_sink_stops_sensor_updates :
  1000 / sensor_update_hz (g_embedded_config started) = 1 /\
  exists m',
    vr_embedded_main_loop (repeat false (Z.to_nat 10000)) started =
      Fault Deadlock m' /\
    g_system_tick m' = 177 /\
    frame_counter m' = 176 /\
    g_last_sensor_update m' = 176 /\
    error_count (g_embedded_status m') = 11 /\
    state (g_embedded_status m') = VR_SYSTEM_READY.
Proof.
  split; [reflexivity|].
  eexists. split; [vm_compute; reflexivity|]. by_computation.
Qed.

(** The only error kinds a pass of the loop can report are the two the tick
    handler raises. *)
Lemma main_loop_body_error_codes publish_ok m code n :
  In (LogError code n) (console (final (main_loop_body publish_ok m))) ->
  In (LogError code n) (console m) \/
  code = VR_ERROR_SENSOR_INIT_FAILED \/ code = VR_ERROR_POWER_LOW.
Proof.
  unfold main_loop_body, vr_embedded_system_tick, sensor_gate, telemetry_gate,
    watchdog_gate, power_gate, rate_interval, vr_sensors_update,
    vr_telemetry_send_packet, vr_telemetry_is_ready, vr_rabbitmq_is_connected,
    vr_rabbitmq_send_telemetry, vr_watchdog_feed, vr_power_enter_sleep,
    vr_error_handler, vr_embedded_set_state.
  unfold_monad.
  repeat (cbn;
          match goal with
          | |- In _ (console (final ?run)) -> _ =>
              match run with
              | context [if negb ?c then _ else _] => destruct c eqn:?
              | context [if ?a && _ then _ else _] => destruct a eqn:?
              | context [if ?c then _ else _] => destruct c eqn:?
              end
          end).
  all: cbn; intros Hin.
  all: repeat match goal with
              | H : _ \/ _ |- _ => destruct H as [H|H]
              | H : LogError _ _ = LogError _ _ |- _ =>
                  injection H as <- <-
              end; auto; try discriminate.
Qed.

Lemma main_loop_error_codes sink :
  forall m code n,
    In (LogError code n) (console (final (vr_embedded_main_loop sink m))) ->
    In (LogError code n) (console m) \/
    code = VR_ERROR_SENSOR_INIT_FAILED \/ code = VR_ERROR_POWER_LOW.
Proof.
  induction sink as [|ok rest IH]; intros m code n Hin.
  - left. exact Hin.
  - cbn [vr_embedded_main_loop] in Hin. unfold bind at 1 in Hin.
    pose proof (main_loop_body_error_codes ok m code n) as Hbody.
    destruct (main_loop_body ok m) as [[] m1|f m1]; cbn [final] in *.
    + destruct (IH m1 code n Hin) as [Hold|Hnew]; auto.
    + auto.
Qed.

Lemma main_loop_body_feeds_when_due publish_ok m :
  watchdog_enabled (g_embedded_config m) = true ->
  feeds_when_due m (main_loop_body publish_ok m).
Proof.
  intros Hen.
  unfold main_loop_body, vr_embedded_system_tick, sensor_gate, telemetry_gate,
    watchdog_gate, power_gate, rate_interval, vr_sensors_update,
    vr_telemetry_send_packet, vr_telemetry_is_ready, vr_rabbitmq_is_connected,
    vr_rabbitmq_send_telemetry, vr_watchdog_feed, vr_power_enter_sleep,
    vr_error_handler, vr_embedded_set_state, perform, tick_after.
  unfold_monad.
  repeat (cbn -[feeds_when_due]; rewrite ?Hen;
          match goal with
          | |- feeds_when_due _ ?run =>
              match run with
              | context [if negb ?c then _ else _] => destruct c eqn:?
              | context [if ?a && _ then _ else _] => destruct a eqn:?
              | context [if ?c then _ else _] => destruct c eqn:?
              end
          end).
  all: unfold feeds_when_due, tick_after; cbn.
  all: repeat match goal with
              | H : (_ <=? _) = _ |- _ => rewrite ?H; clear H
              end.
  all: split; reflexivity.
Qed.

(** C5 (as amended): with the watchdog enabled, every pass of the loop that
    returns has fed the watchdog exactly when
    [(tick - last_feed_tick) >= timeout / 2] in [uint32_t] arithmetic,
    recording the tick in [last_watchdog_reset], and has left it alone
    otherwise; a pass that stops early (in the tick handler's nested lock
    or on a zero rate) stops before the watchdog gate and does not feed.
    A pass that stays clear of the tick handler's error guards returns, and
    on such a run from tick 0 the watchdog is last fed at the latest
    multiple of [timeout / 2].  Nothing in the loop compares the time since
    the last feed with the timeout: no run, however long the watchdog went
    unfed before it, reports [VR_ERROR_WATCHDOG_TIMEOUT]. *)
Theorem watchdog_fed_at_half_timeout_no_expiry_report :
  forall (sink : list bool) (publish_ok : bool) (m : machine),
    watchdog_enabled (g_embedded_config m) = true ->
    (forall m',
       main_loop_body publish_ok m = Ret tt m' ->
       g_last_watchdog_feed m' =
         (if watchdog_timeout_ms (g_embedded_config m) / 2 <=?
               wrap32 (tick_after m - g_last_watchdog_feed m)
          then tick_after m else g_last_watchdog_feed m) /\
       last_watchdog_reset (g_embedded_status m') =
         (if watchdog_timeout_ms (g_embedded_config m) / 2 <=?
               wrap32 (tick_after m - g_last_watchdog_feed m)
          then tick_after m else last_watchdog_reset (g_embedded_status m))) /\
    (forall f m',
       main_loop_body publish_ok m = Fault f m' ->
       g_last_watchdog_feed m' = g_last_watchdog_feed m /\
       last_watchdog_reset (g_embedded_status m') =
         last_watchdog_reset (g_embedded_status m)) /\
    (quiet m ->
     exists m',
       main_loop_body publish_ok m = Ret tt m' /\
       g_last_watchdog_feed m' =
         (if watchdog_timeout_ms (g_embedded_config m) / 2 <=?
               wrap32 (tick_after m - g_last_watchdog_feed m)
          then tick_after m else g_last_watchdog_feed m) /\
       last_watchdog_reset (g_embedded_status m') =
         (if watchdog_timeout_ms (g_embedded_config m) / 2 <=?
               wrap32 (tick_after m - g_last_watchdog_feed m)
          then tick_after m else last_watchdog_reset (g_embedded_status m)) /\
       state (g_embedded_status m') = state (g_embedded_status m)) /\
    (quiet m ->
     0 <= error_count (g_embedded_status m) ->
     error_count (g_embedded_status m) + failures sink <= 10 ->
     0 < sensor_update_hz (g_embedded_config m) ->
     2 <= watchdog_timeout_ms (g_embedded_config m) ->
     Z.of_nat (length sink) < 2 ^ 32 ->
     g_system_tick m = 0 -> g_last_sensor_update m = 0 ->
     g_last_watchdog_feed m = 0 ->
     last_watchdog_reset (g_embedded_status m) = 0 ->
     exists m',
       vr_embedded_main_loop sink m = Ret tt m' /\
       last_watchdog_reset (g_embedded_status m') =
         watchdog_timeout_ms (g_embedded_config m) / 2 *
           (Z.of_nat (length sink) /
              (watchdog_timeout_ms (g_embedded_config m) / 2))) /\
    (forall n,
       In (LogError VR_ERROR_WATCHDOG_TIMEOUT n)
          (console (final (vr_embedded_main_loop sink m))) ->
       In (LogError VR_ERROR_WATCHDOG_TIMEOUT n) (console m)).
Proof.
  intros sink publish_ok m Hen.
  pose proof (main_loop_body_feeds_when_due publish_ok m Hen) as Hpass.
  split; [|split; [|split; [|split]]].
  - intros m' Hrun. rewrite Hrun in Hpass. exact Hpass.
  - intros f m' Hrun. rewrite Hrun in Hpass. exact Hpass.
  - intros Hquiet.
    destruct (main_loop_body_quiet publish_ok m Hquiet)
      as (m' & Hrun & _ & _ & _ & _ & _ & _ & Hstate & _ & _ & _ & _ & _ & _ &
          _ & Hwf & Hwr).
    exists m'. unfold watchdog_due in Hwf, Hwr. rewrite Hen in Hwf, Hwr.
    cbn [andb] in Hwf, Hwr. auto.
  - intros Hquiet Hec0 Hec Hrate Htimeout Hlen Htick Hls Hwf Hwr.
    assert (HW : 1 <= watchdog_timeout_ms (g_embedded_config m) / 2)
      by (apply Z.div_le_lower_bound; lia).
    destruct (main_loop_schedule sink m 0 0)
      as (m' & Hrun & _ & _ & _ & _ & _ & Hwd'); try assumption; try lia.
    + rewrite Hls. unfold last_fired.
      destruct (_ =? 0); [reflexivity|]. rewrite Zdiv_0_l. lia.
    + exists m'. split; [exact Hrun|].
      destruct Hwd' as [_ Hwr']; try assumption; try lia.
      * rewrite Hwf. unfold last_fired.
        destruct (_ =? 0); [reflexivity|]. rewrite Zdiv_0_l. lia.
      * rewrite Hwr. unfold last_fired.
        destruct (_ =? 0); [reflexivity|]. rewrite Zdiv_0_l. lia.
      * rewrite Hwr'. unfold last_fired. rewrite Z.add_0_l.
        destruct (Z.eqb_spec (watchdog_timeout_ms (g_embedded_config m) / 2) 0);
          [lia|reflexivity].
  - intros n Hin.
    destruct (main_loop_error_codes sink m _ n Hin) as [Hold|[Hc|Hc]];
      [exact Hold|discriminate Hc|discriminate Hc].
Qed.

(** Between resets the error counter only grows: a report adds one, and a
    pass clear of the tick handler's error guards adds one or nothing (short
    of the wrap-around at 2^32). *)
Lemma error_count_never_decreases publish_ok code m :
  g_system_mutex m = false ->
  0 <= error_count (g_embedded_status m) < 2 ^ 32 - 1 ->
  (exists m',
     vr_error_handler code m = Ret tt m' /\
     error_count (g_embedded_status m) < error_count (g_embedded_status m')) /\
  (quiet m ->
   exists m',
     main_loop_body publish_ok m = Ret tt m' /\
     error_count (g_embedded_status m) <= error_count (g_embedded_status m')).
Proof.
  intros Hfree Hrange. split.
  - destruct (vr_error_handler_free code m Hfree) as (m' & Hrun & Hec & _).
    exists m'. split; [exact Hrun|]. rewrite Hec, wrap32_small; lia.
  - intros Hquiet.
    destruct (main_loop_body_quiet publish_ok m Hquiet)
      as (m' & Hrun & _ & _ & _ & _ & _ & _ & _ & _ & _ & _ & _ & _ & Hec & _).
    exists m'. split; [exact Hrun|]. rewrite Hec.
    destruct (_ && _); [rewrite wrap32_small|]; lia.
Qed.

(** C3, at the failing inputs: on a telemetry-due pass with the telemetry
    path ready, [g_last_telemetry_send] is set to the tick whether the
    publish succeeds or not; a failed publish adds one to the error counter
    and prints the telemetry path's own notice, but the state is left as it
    was and no error code is reported, even when the new count is above 5,
    where the same report made through [vr_error_handler] sets the state to
    [VR_SYSTEM_ERROR]. *)
Theorem telemetry_failure_bypasses_error_handler :
  forall (publish_ok : bool) (m : machine),
    quiet m ->
    0 <= error_count (g_embedded_status m) ->
    telemetry_due m = true ->
    telemetry_ready m = true ->
    exists m',
      main_loop_body publish_ok m = Ret tt m' /\
      g_last_telemetry_send m' = g_system_tick m' /\
      state (g_embedded_status m') = state (g_embedded_status m) /\
      error_count (g_embedded_status m') =
        (if publish_ok then error_count (g_embedded_status m)
         else error_count (g_embedded_status m) + 1) /\
      console m' =
        (if publish_ok then console m
         else LogSendFailed (error_count (g_embedded_status m) + 1)
                :: console m) /\
      (publish_ok = false ->
       5 <= error_count (g_embedded_status m) ->
       exists m'',
         vr_error_handler VR_ERROR_COMM_TIMEOUT m = Ret tt m'' /\
         error_count (g_embedded_status m'') =
           error_count (g_embedded_status m) + 1 /\
         state (g_embedded_status m'') = VR_SYSTEM_ERROR).
Proof.
  intros publish_ok m Hquiet Hec0 Hdue Hready.
  destruct (main_loop_body_quiet publish_ok m Hquiet)
    as (m' & Hrun & Htick & _ & _ & _ & _ & _ & Hstate & _ & _ & _ & _ &
        Hlt & Hec & Hcon & _).
  destruct Hquiet as (Hfree & Hle & _).
  assert (Hw : wrap32 (error_count (g_embedded_status m) + 1) =
               error_count (g_embedded_status m) + 1)
    by (apply wrap32_small; lia).
  rewrite Hdue, Hready, Hw in *. cbn [andb] in *.
  exists m'. split; [exact Hrun|]. split; [congruence|]. split; [exact Hstate|].
  split; [destruct publish_ok; exact Hec|].
  split; [destruct publish_ok; exact Hcon|].
  intros _ Hfive.
  destruct (vr_error_handler_free VR_ERROR_COMM_TIMEOUT m Hfree)
    as (m'' & Hrun'' & Hec'' & Hstate'' & _).
  exists m''. rewrite Hw in Hec''. split; [exact Hrun''|]. split; [exact Hec''|].
  rewrite Hstate'', Hec''.
  replace (5 <? error_count (g_embedded_status m) + 1) with true; auto.
  symmetry. apply Z.ltb_lt. lia.
Qed.

(** ** Concrete runs *)

Example started_returns : vr_embedded_init None 50 true boot = Ret tt started.
Proof. vm_compute. reflexivity. Qed.

Example started_eager_returns :
  vr_embedded_init (Some eager_config) 50 true boot = Ret tt started_eager.
Proof. vm_compute. reflexivity. Qed.

Example after_failed_sends_returns :
  vr_embedded_main_loop (repeat false 11) started_eager =
    Ret tt (after_failed_sends 11).
Proof. vm_compute. reflexivity. Qed.

Lemma started_eager_quiet : quiet started_eager.
Proof. by_computation. Qed.

Lemma error_reports_escalate_above_five_witness :
  g_system_mutex started = false /\
  u32 (error_count (g_embedded_status started)) /\
  exists m',
    report_errors [2; 2; 2; 2; 2; 2] started = Ret tt m' /\
    state (g_embedded_status m') = VR_SYSTEM_ERROR.
Proof.
  assert (Hfree : g_system_mutex started = false) by reflexivity.
  assert (Hu : u32 (error_count (g_embedded_status started)))
    by by_computation.
  split; [exact Hfree|]. split; [exact Hu|].
  destruct (error_reports_escalate_above_five [2; 2; 2; 2; 2; 2] started
              Hfree Hu) as (m' & Hrun & _ & _ & _ & Hup & _).
  exists m'. split; [exact Hrun|].
  apply Hup; [by_computation|discriminate|by_computation].
Defined.

(** C1, counterexample: five reports on the freshly initialised machine
    take the counter to 5 and the state is still [VR_SYSTEM_READY]. *)
Lemma five_error_reports_leave_state_ready :
  exists m',
    report_errors [2; 2; 2; 2; 2] started = Ret tt m' /\
    error_count (g_embedded_status m') = 5 /\
    state (g_embedded_status m') = VR_SYSTEM_READY /\
    state (g_embedded_status m') <> VR_SYSTEM_ERROR.
Proof.
  eexists. split; [vm_compute; reflexivity|]. by_computation.
Qed.

(** A connected machine whose communication-ready flag is clear. *)
Lemma vr_telemetry_send_packet_not_ready_witness :
  g_connected (with_status (set_communication_ready false
                              (g_embedded_status started)) started) = true /\
  communication_ready
    (g_embedded_status
       (with_status (set_communication_ready false
                       (g_embedded_status started)) started)) = false /\
  effects (final (vr_telemetry_send_packet true
                    (with_status (set_communication_ready false
                                    (g_embedded_status started)) started))) =
    [] /\
  exists m',
    vr_telemetry_send_packet true started = Ret tt m' /\
    effects m' = [EffPublish ConnLive 0 true].
Proof.
  split; [reflexivity|]. split; [reflexivity|].
  destruct (vr_telemetry_send_packet_not_ready true
              (with_status (set_communication_ready false
                              (g_embedded_status started)) started))
    as [Hnot _].
  destruct (Hnot (or_introl eq_refl)) as (_ & Heff & _).
  split; [rewrite Heff; by_computation|].
  destruct (vr_telemetry_send_packet_not_ready true started) as [_ Hready].
  destruct (Hready ltac:(by_computation) ltac:(by_computation))
    as (m' & Hrun & Heff').
  exists m'. split; [exact Hrun|]. rewrite Heff'. by_computation.
Defined.

Lemma vr_embedded_init_ends_ready_witness :
  g_system_mutex boot = false /\
  exists m',
    vr_embedded_init None 0 true boot = Ret tt m' /\
    state (g_embedded_status m') = VR_SYSTEM_READY /\
    error_count (g_embedded_status m') = 1.
Proof.
  split; [reflexivity|].
  destruct (vr_embedded_init_ends_ready None 0 true boot eq_refl)
    as (m' & Hrun & Hstate & _ & _ & Hcount).
  exists m'. auto.
Defined.

(** C7, counterexample: at process start, with [rand()] returning 0 the
    self-test fails, and [vr_embedded_init] still returns with the state
    [VR_SYSTEM_READY]. *)
Lemma failed_self_test_still_ready :
  exists m',
    vr_embedded_init None 0 true boot = Ret tt m' /\
    ~ (state (g_embedded_status m') = VR_SYSTEM_READY <->
       vr_sensors_self_test 0 = true).
Proof.
  eexists. split; [vm_compute; reflexivity|].
  intros [Hready _]. specialize (Hready eq_refl). discriminate Hready.
Qed.

Lemma vr_system_reset_clears_reset_count_witness :
  g_system_mutex (after_failed_sends 3) = false /\
  error_count (g_embedded_status (after_failed_sends 3)) = 3 /\
  reset_count (g_embedded_status (reset_staged (after_failed_sends 3))) = 1 /\
  exists m',
    vr_system_reset 50 true (after_failed_sends 3) = Ret tt m' /\
    reset_count (g_embedded_status m') = 0 /\
    error_count (g_embedded_status m') = 0.
Proof.
  split; [reflexivity|]. split; [reflexivity|].
  destruct (vr_system_reset_clears_reset_count 50 true (after_failed_sends 3)
              eq_refl)
    as (_ & _ & _ & Hstaged & m' & Hrun & Hreset & Hcount & _).
  split; [rewrite Hstaged; reflexivity|].
  exists m'. auto.
Defined.

Lemma vr_embedded_system_tick_relocks_witness :
  g_system_mutex (after_failed_sends 11) = false /\
  10 < error_count (g_embedded_status (after_failed_sends 11)) /\
  state (g_embedded_status (after_failed_sends 11)) = VR_SYSTEM_READY /\
  exists m',
    vr_embedded_system_tick (after_failed_sends 11) = Fault Deadlock m' /\
    g_system_mutex m' = true.
Proof.
  assert (Hgt : 10 < error_count (g_embedded_status (after_failed_sends 11)))
    by by_computation.
  split; [reflexivity|]. split; [exact Hgt|]. split; [reflexivity|].
  destruct (vr_embedded_system_tick_relocks (after_failed_sends 11)
              eq_refl Hgt) as (m' & Hrun & Hheld & _).
  exists m'. auto.
Defined.

Lemma sensor_gate_fires_once_per_interval_witness :
  quiet started_eager /\
  1000 / sensor_update_hz (g_embedded_config started_eager) = 3 /\
  exists m',
    vr_embedded_main_loop (repeat true 20) started_eager = Ret tt m' /\
    frame_counter m' = 6 /\
    g_last_sensor_update m' = 18.
Proof.
  split; [exact started_eager_quiet|]. split; [reflexivity|].
  destruct (sensor_gate_fires_once_per_interval (repeat true 20) started_eager
              started_eager_quiet)
    as [Hslow _]; try by_computation.
  destruct Hslow as (_ & _ & m' & Hrun & _ & Hfc & Hls); [by_computation|].
  exists m'. split; [exact Hrun|]. split; [rewrite Hfc|rewrite Hls]; reflexivity.
Defined.

Lemma watchdog_fed_at_half_timeout_no_expiry_report_witness :
  watchdog_enabled (g_embedded_config started) = true /\
  (exists m',
     main_loop_body true (with_tick 2499 started) = Ret tt m' /\
     g_last_watchdog_feed (with_tick 2499 started) = 0 /\
     g_last_watchdog_feed m' = 2500 /\
     last_watchdog_reset (g_embedded_status m') = 2500) /\
  forall n,
    ~ In (LogError VR_ERROR_WATCHDOG_TIMEOUT n)
         (console (final (vr_embedded_main_loop (repeat false 12) started))).
Proof.
  split; [reflexivity|]. split.
  - destruct (watchdog_fed_at_half_timeout_no_expiry_report
                [] true (with_tick 2499 started) eq_refl)
      as (Hfed & _).
    eexists. split; [vm_compute; reflexivity|].
    split; [reflexivity|].
    destruct (Hfed _ ltac:(vm_compute; reflexivity)) as [Hfeed Hreset].
    split; [rewrite Hfeed|rewrite Hreset]; by_computation.
  - intros n Hin.
    destruct (watchdog_fed_at_half_timeout_no_expiry_report
                (repeat false 12) true started eq_refl)
      as (_ & _ & _ & _ & Hnone).
    exact (Hnone n Hin).
Defined.

(** C5, counterexample: the tick handler runs 6000 times with no pass of
    the loop in between, so the watchdog, enabled with a 5000 ms timeout,
    goes unfed for more than its timeout; the next pass of the loop feeds
    it and reports nothing. *)
Lemma unfed_watchdog_reports_no_expiry :
  exists m m',
    timer_interrupts (Z.to_nat 6000) started = Ret tt m /\
    main_loop_body true m = Ret tt m' /\
    watchdog_enabled (g_embedded_config m) = true /\
    watchdog_timeout_ms (g_embedded_config m) <=
      wrap32 (g_system_tick m' - last_watchdog_reset (g_embedded_status m)) /\
    last_watchdog_reset (g_embedded_status m') = g_system_tick m' /\
    error_count (g_embedded_status m') = error_count (g_embedded_status m) /\
    state (g_embedded_status m') = VR_SYSTEM_READY /\
    console m' = [].
Proof.
  do 2 eexists. split; [vm_compute; reflexivity|].
  split; [vm_compute; reflexivity|]. by_computation.
Qed.

Lemma telemetry_failure_bypasses_error_handler_witness :
  quiet (after_failed_sends 5) /\
  telemetry_due (after_failed_sends 5) = true /\
  telemetry_ready (after_failed_sends 5) = true /\
  error_count (g_embedded_status (after_failed_sends 5)) = 5 /\
  exists m',
    main_loop_body false (after_failed_sends 5) = Ret tt m' /\
    error_count (g_embedded_status m') = 6 /\
    state (g_embedded_status m') = VR_SYSTEM_READY.
Proof.
  assert (Hquiet : quiet (after_failed_sends 5)) by by_computation.
  assert (Hec : 0 <= error_count (g_embedded_status (after_failed_sends 5)))
    by by_computation.
  assert (Hdue : telemetry_due (after_failed_sends 5) = true)
    by by_computation.
  assert (Hready : telemetry_ready (after_failed_sends 5) = true)
    by by_computation.
  assert (Hfive : error_count (g_embedded_status (after_failed_sends 5)) = 5)
    by by_computation.
  split; [exact Hquiet|]. split; [exact Hdue|]. split; [exact Hready|].
  split; [exact Hfive|].
  destruct (telemetry_failure_bypasses_error_handler false
              (after_failed_sends 5) Hquiet Hec Hdue Hready)
    as (m' & Hrun & _ & Hstate & Hcount & _).
  exists m'. split; [exact Hrun|].
  split; [rewrite Hcount, Hfive; reflexivity|].
  rewrite Hstate. by_computation.
Defined.

(** A sink that fails in every pass: eleven failures are counted with the
    state still [VR_SYSTEM_READY], and the twelfth pass stops in the tick
    handler. *)
Example failing_sink_run :
  state (g_embedded_status (after_failed_sends 11)) = VR_SYSTEM_READY /\
  error_count (g_embedded_status (after_failed_sends 11)) = 11 /\
  exists m', main_loop_body false (after_failed_sends 11) = Fault Deadlock m'.
Proof.
  split; [reflexivity|]. split; [reflexivity|].
  eexists. vm_compute. reflexivity.
Qed.

(** ** The battery level *)

Example literal_0_1 : F32.lit 1 10 = S754_finite false 13421773 (-27).
Proof. reflexivity. Qed.
Example literal_0_2 : F32.lit 2 10 = S754_finite false 13421773 (-26).
Proof. reflexivity. Qed.
Example literal_0_05 : F32.lit 5 100 = S754_finite false 13421773 (-28).
Proof. reflexivity. Qed.
Example literal_0_15 : F32.lit 15 100 = S754_finite false 10066330 (-26).
Proof. reflexivity. Qed.

(** The first sensor update leaves 99 in the packet. *)
Example first_battery_level :
  battery_of (F32.add (simulation_time boot) (F32.lit 1 1000)) = Some 99.
Proof. reflexivity. Qed.

(** C9, at the failing input: with [simulation_time] beyond 1010 s the
    expression [100.0f - simulation_time * 0.1f] is below -1, its integral
    part is -1, outside the range of [uint8_t], and [vr_sensors_update]
    converts it as it is: no clamp precedes the cast, so the packet's
    battery level is not a defined value. *)
Theorem battery_level_cast_is_unclamped :
  F32.trunc
    (F32.sub (F32.of_Z 100)
       (F32.mul (F32.add late_simulation_time (F32.lit 1 1000))
                (F32.lit 1 10))) = Some (-1) /\
  forall m : machine,
    exists m',
      vr_sensors_update (with_simulation_time late_simulation_time m) =
        Ret tt m' /\
      battery_level (g_telemetry_packet m') = None.
Proof.
  split; [vm_compute; reflexivity|].
  intros m. unfold vr_sensors_update. unfold_monad. cbn.
  eexists. split; [reflexivity|]. cbn. vm_compute. reflexivity.
Qed.

(** ** The orientation quaternion *)

Section QuaternionBounds.
Import Quaternion.
Local Open Scope R_scope.
Variables rnd32 rnd64 fsin : R -> R.
Hypothesis rnd32_monotone : monotone rnd32.
Hypothesis rnd64_monotone : monotone rnd64.
Hypothesis rnd32_exact : keeps_binary32 rnd32.
Hypothesis rnd64_exact : keeps_binary32 rnd64.
Hypothesis fsin_bound : forall v : R, -1 <= fsin v <= 1.

Lemma pow2_pos (e : nat) : 0 < 2 ^ e.
Proof. apply pow_lt. lra. Qed.

Lemma f32_value_opp m e : - f32_value m e = f32_value (- m) e.
Proof. unfold f32_value. rewrite opp_IZR. field. apply Rgt_not_eq, pow2_pos. Qed.

Lemma amplitude_bound (m : Z) (e : nat) (s : R) :
  (0 <= m <= 2 ^ 24)%Z -> (e <= 149)%nat ->
  -1 <= s <= 1 ->
  - f32_value m e <= rnd32 (rnd64 (s * f32_value m e)) <= f32_value m e.
Proof.
  intros Hm He Hs.
  assert (Hc : 0 <= f32_value m e).
  { unfold f32_value. apply Rmult_le_pos.
    - apply IZR_le. lia.
    - left. apply Rinv_0_lt_compat, pow2_pos. }
  assert (Hup : rnd32 (rnd64 (f32_value m e)) = f32_value m e).
  { rewrite rnd64_exact, rnd32_exact; auto; lia. }
  assert (Hlo : rnd32 (rnd64 (f32_value (- m) e)) = f32_value (- m) e).
  { rewrite rnd64_exact, rnd32_exact; auto; lia. }
  rewrite <- f32_value_opp in Hlo.
  split.
  - apply Rle_trans with (rnd32 (rnd64 (- f32_value m e))).
    + rewrite Hlo. apply Rle_refl.
    + apply rnd32_monotone, rnd64_monotone. nra.
  - apply Rle_trans with (rnd32 (rnd64 (f32_value m e))).
    + apply rnd32_monotone, rnd64_monotone. nra.
    + rewrite Hup. apply Rle_refl.
Qed.

Lemma square_bound (c q x : R) (m : Z) (e : nat) :
  q = f32_value m e -> (0 <= m <= 2 ^ 24)%Z -> (e <= 149)%nat ->
  - c <= x <= c -> c * c <= q ->
  0 <= rnd32 (x * x) <= q.
Proof.
  intros -> Hm He Hx Hq.
  assert (H0 : rnd32 0 = 0).
  { replace 0 with (f32_value 0 0) by (unfold f32_value; simpl; lra).
    apply rnd32_exact; simpl; lia. }
  split.
  - rewrite <- H0 at 1. apply rnd32_monotone. nra.
  - rewrite <- (rnd32_exact m e) by lia. apply rnd32_monotone. nra.
Qed.

Lemma radicand_bounds (t : R) :
  235 / 256 <= radicand rnd32 rnd64 fsin t <= 1.
Proof.
  unfold radicand.
  pose proof (amplitude_bound 13421773 27 _ ltac:(lia) ltac:(lia)
                (fsin_bound (rnd32 (t * c_0_2)))) as Hx.
  pose proof (amplitude_bound 13421773 26 _ ltac:(lia) ltac:(lia)
                (fsin_bound (rnd32 (t * c_0_15)))) as Hy.
  pose proof (amplitude_bound 13421773 28 _ ltac:(lia) ltac:(lia)
                (fsin_bound (rnd32 (t * c_0_1)))) as Hz.
  fold c_0_1 c_0_2 c_0_05 in Hx, Hy, Hz.
  fold (orientation_x rnd32 rnd64 fsin t) in Hx.
  fold (orientation_y rnd32 rnd64 fsin t) in Hy.
  fold (orientation_z rnd32 rnd64 fsin t) in Hz.
  set (x := orientation_x rnd32 rnd64 fsin t) in *.
  set (y := orientation_y rnd32 rnd64 fsin t) in *.
  set (z := orientation_z rnd32 rnd64 fsin t) in *.
  assert (Hxx : 0 <= rnd32 (x * x) <= 1 / 64).
  { apply (square_bound c_0_1 (1 / 64) x 1 6); try lia; try assumption.
    - unfold f32_value. simpl. lra.
    - unfold c_0_1, f32_value. simpl. lra. }
  assert (Hyy : 0 <= rnd32 (y * y) <= 1 / 16).
  { apply (square_bound c_0_2 (1 / 16) y 1 4); try lia; try assumption.
    - unfold f32_value. simpl. lra.
    - unfold c_0_2, f32_value. simpl. lra. }
  assert (Hzz : 0 <= rnd32 (z * z) <= 1 / 256).
  { apply (square_bound c_0_05 (1 / 256) z 1 8); try lia; try assumption.
    - unfold f32_value. simpl. lra.
    - unfold c_0_05, f32_value. simpl. lra. }
  assert (Hfix : forall (m : Z) (e : nat) (v : R),
             v = f32_value m e -> (Z.abs m <= 2 ^ 24)%Z -> (e <= 149)%nat ->
             rnd32 v = v).
  { intros m e v -> Hm He. apply rnd32_exact; assumption. }
  assert (H0 : rnd32 0 = 0)
    by (apply (Hfix 0%Z 0%nat); [unfold f32_value; simpl; lra|simpl; lia|lia]).
  assert (Hxy : 0 <= rnd32 (rnd32 (x * x) + rnd32 (y * y)) <= 5 / 64).
  { split.
    - rewrite <- H0 at 1. apply rnd32_monotone. lra.
    - rewrite <- (Hfix 5%Z 6%nat (5 / 64));
        [|unfold f32_value; simpl; lra|simpl; lia|lia].
      apply rnd32_monotone. lra. }
  assert (Hsum : 0 <= rnd32 (rnd32 (rnd32 (x * x) + rnd32 (y * y)) +
                              rnd32 (z * z)) <= 21 / 256).
  { split.
    - rewrite <- H0 at 1. apply rnd32_monotone. lra.
    - rewrite <- (Hfix 21%Z 8%nat (21 / 256));
        [|unfold f32_value; simpl; lra|simpl; lia|lia].
      apply rnd32_monotone. lra. }
  split.
  - rewrite <- (Hfix 235%Z 8%nat (235 / 256));
      [|unfold f32_value; simpl; lra|simpl; lia|lia].
    apply rnd32_monotone. lra.
  - rewrite <- (Hfix 1%Z 0%nat 1) at 2;
      [|unfold f32_value; simpl; lra|simpl; lia|lia].
    apply rnd32_monotone. lra.
Qed.


(** C6: for every simulation time (the sampled times of [0, 10000] s among
    them) the argument of [sqrt] in the reconstruction of
    [head_orientation.w] is at least 235/256: with the amplitudes 0.1, 0.2
    and 0.05 the three squares never add up to more than 21/256, so the
    radicand is never negative and [w] is the root of a non-negative
    number. *)
Theorem radicand_never_negative :
  forall t : R,
    0 <= radicand rnd32 rnd64 fsin t /\
    235 / 256 <= radicand rnd32 rnd64 fsin t <= 1 /\
    sqrt (radicand rnd32 rnd64 fsin t) * sqrt (radicand rnd32 rnd64 fsin t) =
      radicand rnd32 rnd64 fsin t.
Proof.
  intros t. pose proof (radicand_bounds t) as Hb.
  assert (H0 : 0 <= radicand rnd32 rnd64 fsin t) by lra.
  split; [exact H0|]. split; [exact Hb|]. apply sqrt_sqrt. exact H0.
Qed.

End QuaternionBounds.

Lemma radicand_never_negative_witness :
  Quaternion.monotone (fun v : R => v) /\
  Quaternion.keeps_binary32 (fun v : R => v) /\
  (forall v : R, (-1 <= sin v <= 1)%R) /\
  (0 <= Quaternion.radicand (fun v => v) (fun v => v) sin 1)%R.
Proof.
  assert (Hmono : Quaternion.monotone (fun v : R => v))
    by (intros x y Hxy; exact Hxy).
  assert (Hexact : Quaternion.keeps_binary32 (fun v : R => v))
    by (intros m e _ _; reflexivity).
  split; [exact Hmono|]. split; [exact Hexact|]. split; [exact SIN_bound|].
  exact (proj1 (radicand_never_negative (fun v => v) (fun v => v) sin
                  Hmono Hmono Hexact Hexact SIN_bound 1%R)).
Defined.

(** * Further properties of the core *)

(** ** State access *)

(** X1: Writing the state and reading it back: with the mutex free,
    [vr_embedded_set_state s] followed by [vr_embedded_get_state] returns
    [s], leaves the mutex free and touches no counter of the status; a read
    alone leaves the whole machine as it was.  With the mutex held both
    calls stop in their lock, while the two counter getters, which take no
    lock, return on every machine. *)
Theorem set_state_then_get_state :
  forall (s : vr_system_state_t) (m : machine),
    vr_get_error_count m = Ret (error_count (g_embedded_status m)) m /\
    vr_get_system_tick m = Ret (g_system_tick m) m /\
    (g_system_mutex m = false ->
     vr_embedded_get_state m = Ret (state (g_embedded_status m)) m /\
     exists m',
       (vr_embedded_set_state s ;; vr_embedded_get_state) m = Ret s m' /\
       g_system_mutex m' = false /\
       g_embedded_status m' = set_state s (g_embedded_status m) /\
       g_system_tick m' = g_system_tick m) /\
    (g_system_mutex m = true ->
     vr_embedded_get_state m = Fault Deadlock m /\
     vr_embedded_set_state s m = Fault Deadlock m).
Proof.
  intros s m. split; [reflexivity|]. split; [reflexivity|].
  split; intros Hm.
  - split.
    + unfold vr_embedded_get_state. unfold_monad. rewrite Hm.
      destruct m. cbn in *. subst. reflexivity.
    + unfold vr_embedded_get_state, vr_embedded_set_state. unfold_monad.
      rewrite Hm. cbn. eexists. split; [reflexivity|]. cbn. auto.
  - unfold vr_embedded_get_state, vr_embedded_set_state. unfold_monad.
    rewrite Hm. split; reflexivity.
Qed.

Lemma set_state_then_get_state_witness :
  g_system_mutex started = false /\
  exists m',
    (vr_embedded_set_state VR_SYSTEM_SLEEP ;; vr_embedded_get_state) started =
      Ret VR_SYSTEM_SLEEP m'.
Proof.
  split; [reflexivity|].
  destruct (set_state_then_get_state VR_SYSTEM_SLEEP started)
    as (_ & _ & Hfree & _).
  destruct (Hfree eq_refl) as (_ & m' & Hrun & _).
  exists m'. exact Hrun.
Defined.

(** ** The tick handler *)

(** X2: The tick handler never changes the system state, on any machine and
    whether it returns or stops: both places that would set
    [VR_SYSTEM_ERROR] go through [vr_embedded_set_state] with the mutex
    held.  It returns exactly when the mutex is free, at most 10 errors are
    counted, and the voltage is not low or the power-low report leaves the
    count at 5 or below; then the tick has advanced by one (modulo 2^32),
    [uptime_ms] equals it and the mutex is free again. *)
Theorem vr_embedded_system_tick_keeps_state :
  forall m : machine,
    state (g_embedded_status (final (vr_embedded_system_tick m))) =
      state (g_embedded_status m) /\
    ((exists m', vr_embedded_system_tick m = Ret tt m') <->
     g_system_mutex m = false /\
     error_count (g_embedded_status m) <= 10 /\
     (F32.ltb (g_system_voltage m) (F32.of_Z 3) = false \/
      wrap32 (error_count (g_embedded_status m) + 1) <= 5)) /\
    (forall m',
       vr_embedded_system_tick m = Ret tt m' ->
       g_system_tick m' = wrap32 (g_system_tick m + 1) /\
       uptime_ms (g_embedded_status m') = g_system_tick m' /\
       g_system_mutex m' = false).
Proof.
  intros m.
  unfold vr_embedded_system_tick, vr_error_handler, vr_embedded_set_state.
  unfold_monad.
  destruct (g_system_mutex m) eqn:Hmutex; cbn.
  { split; [reflexivity|]. split; [|intros m' H; discriminate H].
    split; [intros [m' H]; discriminate H|intros [H _]; discriminate H]. }
  destruct (Z.ltb_spec 10 (error_count (g_embedded_status m))) as [Hgt|Hle]; cbn.
  { split; [reflexivity|]. split; [|intros m' H; discriminate H].
    split; [intros [m' H]; discriminate H|intros (_ & H & _); lia]. }
  destruct (F32.ltb (g_system_voltage m) (F32.of_Z 3)) eqn:Hvolt; cbn.
  - destruct (Z.ltb_spec 5 (wrap32 (error_count (g_embedded_status m) + 1)))
      as [Hfive|Hfive]; cbn.
    + split; [reflexivity|]. split; [|intros m' H; discriminate H].
      split; [intros [m' H]; discriminate H|].
      intros (_ & _ & [H|H]); [discriminate H|lia].
    + split; [reflexivity|]. split.
      * split; [intros _; auto|intros _; eexists; reflexivity].
      * intros m' H. injection H as <-. cbn. auto.
  - split; [reflexivity|]. split.
    + split; [intros _; auto|intros _; eexists; reflexivity].
    + intros m' H. injection H as <-. cbn. auto.
Qed.

(** X3: A tick with the voltage below 3.0 V: while the report leaves the count
    at 5 or below, the tick returns with one more error counted and a
    power-low report printed; from the report that takes the count above 5
    on, the tick stops in the nested lock instead of returning. *)
Theorem low_voltage_tick :
  forall m : machine,
    g_system_mutex m = false ->
    error_count (g_embedded_status m) <= 10 ->
    F32.ltb (g_system_voltage m) (F32.of_Z 3) = true ->
    (wrap32 (error_count (g_embedded_status m) + 1) <= 5 ->
     exists m',
       vr_embedded_system_tick m = Ret tt m' /\
       error_count (g_embedded_status m') =
         wrap32 (error_count (g_embedded_status m) + 1) /\
       console m' =
         LogError VR_ERROR_POWER_LOW
                  (wrap32 (error_count (g_embedded_status m) + 1))
           :: console m) /\
    (5 < wrap32 (error_count (g_embedded_status m) + 1) ->
     exists m',
       vr_embedded_system_tick m = Fault Deadlock m' /\
       error_count (g_embedded_status m') =
         wrap32 (error_count (g_embedded_status m) + 1) /\
       state (g_embedded_status m') = state (g_embedded_status m)).
Proof.
  intros m Hfree Hle Hvolt.
  unfold vr_embedded_system_tick, vr_error_handler, vr_embedded_set_state.
  unfold_monad. rewrite Hfree. cbn.
  apply Z.ltb_ge in Hle. rewrite Hle. cbn. rewrite Hvolt. cbn.
  split; intros Hfive.
  - apply Z.ltb_ge in Hfive. rewrite Hfive. cbn.
    eexists. split; [reflexivity|]. cbn. auto.
  - apply Z.ltb_lt in Hfive. rewrite Hfive. cbn.
    eexists. split; [reflexivity|]. cbn. auto.
Qed.

Lemma low_voltage_tick_witness :
  g_system_mutex (with_voltage (F32.lit 29 10) started) = false /\
  F32.ltb (g_system_voltage (with_voltage (F32.lit 29 10) started))
          (F32.of_Z 3) = true /\
  exists m',
    vr_embedded_system_tick (with_voltage (F32.lit 29 10) started) =
      Ret tt m' /\
    error_count (g_embedded_status m') = 1.
Proof.
  assert (Hvolt : F32.ltb (g_system_voltage
                             (with_voltage (F32.lit 29 10) started))
                          (F32.of_Z 3) = true) by by_computation.
  split; [reflexivity|]. split; [exact Hvolt|].
  destruct (low_voltage_tick (with_voltage (F32.lit 29 10) started) eq_refl
              ltac:(by_computation) Hvolt) as [Hlow _].
  destruct Hlow as (m' & Hrun & Hcount & _); [by_computation|].
  exists m'. split; [exact Hrun|]. rewrite Hcount. by_computation.
Defined.

(** ** The main loop and the system state *)

Lemma main_loop_body_keeps_state publish_ok m :
  state (g_embedded_status (final (main_loop_body publish_ok m))) =
    state (g_embedded_status m) /\
  (g_power_save_active m = false ->
   g_power_save_active (final (main_loop_body publish_ok m)) = false).
Proof.
  unfold main_loop_body, vr_embedded_system_tick, sensor_gate, telemetry_gate,
    watchdog_gate, power_gate, rate_interval, vr_sensors_update,
    vr_telemetry_send_packet, vr_telemetry_is_ready, vr_rabbitmq_is_connected,
    vr_rabbitmq_send_telemetry, vr_watchdog_feed, vr_power_enter_sleep,
    vr_error_handler, vr_embedded_set_state.
  unfold_monad.
  repeat (cbn;
          match goal with
          | |- state (g_embedded_status (final ?run)) = _ /\ _ =>
              match run with
              | context [if negb ?c then _ else _] => destruct c eqn:?
              | context [if ?a && _ then _ else _] => destruct a eqn:?
              | context [if ?c then _ else _] => destruct c eqn:?
              end
          end).
  all: cbn; split; [reflexivity|]; intros Hoff; congruence.
Qed.

(** X4: No run of the main loop changes the system state, whatever the sink
    answers and however the run ends: the escalation inside the tick handler
    cannot complete, and the telemetry path counts its failures without
    reporting them.  A machine that enters the loop in [VR_SYSTEM_READY]
    is in [VR_SYSTEM_READY] after every pass. *)
Theorem main_loop_never_changes_state :
  forall (sink : list bool) (m : machine),
    state (g_embedded_status (final (vr_embedded_main_loop sink m))) =
      state (g_embedded_status m).
Proof.
  induction sink as [|ok rest IH]; intros m.
  - reflexivity.
  - cbn [vr_embedded_main_loop]. unfold bind at 1.
    pose proof (proj1 (main_loop_body_keeps_state ok m)) as Hbody.
    destruct (main_loop_body ok m) as [[] m1|f m1]; cbn [final] in *.
    + rewrite IH. exact Hbody.
    + exact Hbody.
Qed.

Lemma main_loop_body_no_sleep publish_ok m :
  g_power_save_active m = false ->
  forall l,
    In (EffSleep l) (effects (final (main_loop_body publish_ok m))) ->
    In (EffSleep l) (effects m).
Proof.
  intros Hoff l.
  unfold main_loop_body, vr_embedded_system_tick, sensor_gate, telemetry_gate,
    watchdog_gate, power_gate, rate_interval, vr_sensors_update,
    vr_telemetry_send_packet, vr_telemetry_is_ready, vr_rabbitmq_is_connected,
    vr_rabbitmq_send_telemetry, vr_watchdog_feed, vr_power_enter_sleep,
    vr_error_handler, vr_embedded_set_state, perform.
  unfold_monad.
  repeat (progress
           (cbn; rewrite ?Hoff, ?andb_false_r; cbn;
            try match goal with
          | |- In _ (effects (final ?run)) -> _ =>
              match run with
              | context [if negb ?c then _ else _] => destruct c eqn:?
              | context [if ?a && _ then _ else _] => destruct a eqn:?
              | context [if ?c then _ else _] => destruct c eqn:?
              end
          end)).
  all: cbn; intros Hin.
  all: repeat match goal with
              | H : _ \/ _ |- _ => destruct H as [H|H]
              end; auto; try discriminate.
Qed.

(** With the flag set, power saving enabled and a positive sleep level the
    power gate does sleep, and the sleep is recorded. *)
Lemma power_gate_sleeps m :
  power_save_enabled (g_embedded_config m) = true ->
  g_power_save_active m = true ->
  0 < cpu_sleep_level (g_embedded_config m) ->
  exists m',
    power_gate m = Ret tt m' /\
    effects m' = EffSleep (cpu_sleep_level (g_embedded_config m)) :: effects m.
Proof.
  intros Hen Hon Hlevel. unfold power_gate, vr_power_enter_sleep, perform.
  unfold_monad. rewrite Hen, Hon. cbn.
  apply Z.ltb_lt in Hlevel. rewrite Hlevel. cbn.
  eexists. split; reflexivity.
Qed.

(** X5: From a machine whose sleep flag is clear, as [vr_power_init] leaves
    it, no run of the main loop ever sleeps: [vr_power_enter_sleep] is the
    only writer of the flag and clears it before it returns, so the flag is
    clear after every pass, the power gate, which requires it set, never
    calls [vr_power_enter_sleep], and no pause is added to the record of
    effects, whatever the power-save configuration. *)
Theorem main_loop_never_sleeps :
  forall (sink : list bool) (m : machine),
    g_power_save_active m = false ->
    g_power_save_active (final (vr_embedded_main_loop sink m)) = false /\
    (forall l,
       In (EffSleep l) (effects (final (vr_embedded_main_loop sink m))) ->
       In (EffSleep l) (effects m)).
Proof.
  induction sink as [|ok rest IH]; intros m Hoff.
  - split; [exact Hoff|auto].
  - cbn [vr_embedded_main_loop]. unfold bind. cbv beta.
    pose proof (proj2 (main_loop_body_keeps_state ok m) Hoff) as Hflag.
    pose proof (main_loop_body_no_sleep ok m Hoff) as Hsleep.
    destruct (main_loop_body ok m) as [[] m1|f m1]; cbn [final] in *.
    + destruct (IH m1 Hflag) as [Hflag' Hsleep'].
      split; [exact Hflag'|]. intros l Hin. apply Hsleep. apply Hsleep'. exact Hin.
    + split; [exact Hflag|exact Hsleep].
Qed.

Lemma main_loop_never_sleeps_witness :
  g_power_save_active started = false /\
  power_save_enabled (g_embedded_config started) = true /\
  forall l,
    ~ In (EffSleep l)
         (effects (final (vr_embedded_main_loop (repeat true 50) started))).
Proof.
  split; [reflexivity|]. split; [reflexivity|].
  intros l Hin.
  exact (proj2 (main_loop_never_sleeps (repeat true 50) started eq_refl)
               l Hin).
Defined.

(** ** Zero rates *)



(** ** The telemetry gate over a run *)








(** ** Frame ids and the sensor buffer index *)

Lemma vr_sensors_update_step m :
  exists m',
    vr_sensors_update m = Ret tt m' /\
    frame_id (g_telemetry_packet m') = frame_counter m /\
    frame_counter m' = wrap32 (frame_counter m + 1) /\
    g_sensor_buffer_index m' = wrap8 ((g_sensor_buffer_index m + 1) mod 32) /\
    simulation_time m' = F32.add (simulation_time m) (F32.lit 1 1000) /\
    g_embedded_status m' = g_embedded_status m /\
    g_system_mutex m' = g_system_mutex m.
Proof.
  unfold vr_sensors_update. unfold_monad. cbn.
  eexists. split; [reflexivity|]. cbn. auto 10.
Qed.

(** X9: [n + 1] sensor updates in a row, from a buffer index inside the
    32-slot buffer: the packet carries the frame id [frame_counter + n] and
    the counter is at [frame_counter + n + 1] (both modulo 2^32), so frame
    ids are consecutive; the buffer index has advanced by [n + 1] modulo 32
    and is again inside the buffer; the status record is untouched. *)
Theorem sensor_updates_number_frames :
  forall (n : nat) (m : machine),
    0 <= g_sensor_buffer_index m < 32 ->
    u32 (frame_counter m) ->
    exists m',
      sensor_updates (S n) m = Ret tt m' /\
      frame_id (g_telemetry_packet m') =
        wrap32 (frame_counter m + Z.of_nat n) /\
      frame_counter m' = wrap32 (frame_counter m + Z.of_nat n + 1) /\
      g_sensor_buffer_index m' =
        (g_sensor_buffer_index m + Z.of_nat n + 1) mod 32 /\
      0 <= g_sensor_buffer_index m' < 32 /\
      g_embedded_status m' = g_embedded_status m.
Proof.
  assert (Hwrap8 : forall i, wrap8 (i mod 32) = i mod 32).
  { intros i. unfold wrap8. apply Z.mod_small.
    pose proof (Z.mod_pos_bound i 32 ltac:(lia)). lia. }
  induction n as [|n IH]; intros m Hidx Hfc.
  - destruct (vr_sensors_update_step m)
      as (m' & Hrun & Hid & Hfc' & Hix & _ & Hst & _).
    exists m'. cbn [sensor_updates]. unfold bind at 1. rewrite Hrun.
    unfold ret. cbn [Z.of_nat]. rewrite !Z.add_0_r.
    rewrite Hid, Hfc', Hix, Hwrap8, (wrap32_small _ Hfc).
    repeat split; auto; apply Z.mod_pos_bound; lia.
  - destruct (vr_sensors_update_step m)
      as (m1 & Hrun1 & _ & Hfc1 & Hix1 & _ & Hst1 & _).
    rewrite Hwrap8 in Hix1.
    destruct (IH m1) as (m' & Hrun & Hid & Hfc' & Hix & Hrange & Hst).
    { rewrite Hix1. apply Z.mod_pos_bound. lia. }
    { rewrite Hfc1. apply wrap32_range. }
    exists m'. change (sensor_updates (S (S n)) m)
      with (bind vr_sensors_update (fun _ => sensor_updates (S n)) m).
    unfold bind at 1. rewrite Hrun1.
    replace (Z.of_nat (S n)) with (1 + Z.of_nat n) by lia.
    split; [exact Hrun|].
    split; [rewrite Hid, Hfc1, wrap32_add_l; f_equal; lia|].
    split; [rewrite Hfc', Hfc1; rewrite <- Z.add_assoc, wrap32_add_l;
            f_equal; lia|].
    split.
    { rewrite Hix, Hix1. rewrite <- Z.add_assoc, Zplus_mod_idemp_l.
      f_equal. lia. }
    split; [exact Hrange|congruence].
Qed.

Lemma sensor_updates_number_frames_witness :
  0 <= g_sensor_buffer_index started < 32 /\
  u32 (frame_counter started) /\
  exists m',
    sensor_updates 40 started = Ret tt m' /\
    frame_id (g_telemetry_packet m') = 39 /\
    g_sensor_buffer_index m' = 8.
Proof.
  assert (Hidx : 0 <= g_sensor_buffer_index started < 32) by by_computation.
  assert (Hfc : u32 (frame_counter started)) by by_computation.
  split; [exact Hidx|]. split; [exact Hfc|].
  destruct (sensor_updates_number_frames 39 started Hidx Hfc)
    as (m' & Hrun & Hid & _ & Hix & _).
  exists m'. split; [exact Hrun|].
  split; [rewrite Hid|rewrite Hix]; by_computation.
Defined.

(** ** What initialisation and reset leave alone *)

Lemma vr_embedded_init_frame config rand_value broker_ok m :
  g_system_mutex m = false ->
  exists m',
    vr_embedded_init config rand_value broker_ok m = Ret tt m' /\
    g_system_tick m' = g_system_tick m /\
    g_last_sensor_update m' = g_last_sensor_update m /\
    g_last_telemetry_send m' = g_last_telemetry_send m /\
    g_last_watchdog_feed m' = g_last_watchdog_feed m /\
    frame_counter m' = frame_counter m /\
    simulation_time m' = simulation_time m /\
    g_telemetry_packet m' = mkPacket 0 (Some 100) /\
    g_sensor_buffer_index m' = 0 /\
    uptime_ms (g_embedded_status m') = 0 /\
    last_watchdog_reset (g_embedded_status m') =
      (if watchdog_enabled
            (match config with Some c => c | None => default_config end)
       then g_system_tick m else 0) /\
    g_power_save_active m' = false /\
    g_connected m' = (broker_ok || g_connected m) /\
    communication_ready (g_embedded_status m') = true.
Proof.
  intros Hfree.
  unfold vr_embedded_init, vr_sensors_init, vr_error_handler, vr_power_init,
    vr_watchdog_init, vr_telemetry_init, vr_rabbitmq_init.
  unfold_monad. rewrite Hfree. cbn.
  destruct (vr_sensors_self_test rand_value); cbn;
    try change (wrap32 1) with 1; cbn;
    destruct config as [c|]; cbn;
    try destruct (watchdog_enabled c); cbn;
    destruct broker_ok; cbn;
    eexists; (split; [reflexivity|]); cbn; auto 20.
Qed.

(** X10: A reset restarts neither the tick nor the simulation: with the mutex
    free, [vr_system_reset] returns with the tick counter, the three
    last-fired ticks of the gates, the frame counter and the simulation time
    as they were, while the packet is back to frame id 0 and battery 100,
    the buffer index to 0 and [uptime_ms] to 0; [last_watchdog_reset] is the
    current tick when the watchdog is enabled and 0 otherwise. *)
Theorem vr_system_reset_keeps_clocks :
  forall (rand_value : Z) (broker_ok : bool) (m : machine),
    g_system_mutex m = false ->
    exists m',
      vr_system_reset rand_value broker_ok m = Ret tt m' /\
      g_system_tick m' = g_system_tick m /\
      g_last_sensor_update m' = g_last_sensor_update m /\
      g_last_telemetry_send m' = g_last_telemetry_send m /\
      g_last_watchdog_feed m' = g_last_watchdog_feed m /\
      frame_counter m' = frame_counter m /\
      simulation_time m' = simulation_time m /\
      g_telemetry_packet m' = mkPacket 0 (Some 100) /\
      g_sensor_buffer_index m' = 0 /\
      uptime_ms (g_embedded_status m') = 0 /\
      last_watchdog_reset (g_embedded_status m') =
        (if watchdog_enabled (g_embedded_config m)
         then g_system_tick m else 0).
Proof.
  intros rand_value broker_ok m Hfree.
  assert (Hstaged :
    vr_system_reset rand_value broker_ok m =
      vr_embedded_init (Some (g_embedded_config m)) rand_value broker_ok
                       (reset_staged m)) by reflexivity.
  destruct (vr_embedded_init_frame (Some (g_embedded_config m)) rand_value
              broker_ok (reset_staged m) Hfree)
    as (m' & Hrun & H1 & H2 & H3 & H4 & H5 & H6 & H7 & H8 & H9 & H10 & _).
  exists m'. rewrite Hstaged. cbn in *. auto 20.
Qed.

Lemma vr_system_reset_keeps_clocks_witness :
  g_system_mutex (after_failed_sends 7) = false /\
  g_system_tick (after_failed_sends 7) = 7 /\
  frame_counter (after_failed_sends 7) = 2 /\
  exists m',
    vr_system_reset 50 true (after_failed_sends 7) = Ret tt m' /\
    g_system_tick m' = 7 /\
    frame_counter m' = 2 /\
    frame_id (g_telemetry_packet m') = 0.
Proof.
  assert (Htick : g_system_tick (after_failed_sends 7) = 7) by by_computation.
  assert (Hfc : frame_counter (after_failed_sends 7) = 2) by by_computation.
  split; [reflexivity|]. split; [exact Htick|]. split; [exact Hfc|].
  destruct (vr_system_reset_keeps_clocks 50 true (after_failed_sends 7)
              eq_refl)
    as (m' & Hrun & Ht & _ & _ & _ & Hf & _ & Hp & _).
  exists m'. split; [exact Hrun|]. split; [congruence|].
  split; [congruence|]. rewrite Hp. reflexivity.
Defined.

(** X11: After [vr_embedded_init] the communication-ready flag is set even when
    the broker could not be reached: the [false] that [vr_telemetry_init]
    stores is overwritten at the end of the initialisation.  Whether the
    telemetry path is ready then rests on [g_connected] alone, which is set
    when this attempt succeeded or a connection was already up. *)
Theorem vr_embedded_init_readiness :
  forall (config : option vr_embedded_config_t) (rand_value : Z)
         (broker_ok : bool) (m : machine),
    g_system_mutex m = false ->
    exists m',
      vr_embedded_init config rand_value broker_ok m = Ret tt m' /\
      communication_ready (g_embedded_status m') = true /\
      g_connected m' = (broker_ok || g_connected m) /\
      vr_telemetry_is_ready m' = Ret (broker_ok || g_connected m) m'.
Proof.
  intros config rand_value broker_ok m Hfree.
  destruct (vr_embedded_init_frame config rand_value broker_ok m Hfree)
    as (m' & Hrun & _ & _ & _ & _ & _ & _ & _ & _ & _ & _ & _ & Hconn & Hcr).
  exists m'. split; [exact Hrun|]. split; [exact Hcr|]. split; [exact Hconn|].
  unfold vr_telemetry_is_ready, vr_rabbitmq_is_connected. unfold_monad.
  rewrite Hcr, Hconn. reflexivity.
Qed.

Lemma vr_embedded_init_readiness_witness :
  g_system_mutex boot = false /\
  exists m',
    vr_embedded_init None 50 false boot = Ret tt m' /\
    communication_ready (g_embedded_status m') = true /\
    vr_telemetry_is_ready m' = Ret false m'.
Proof.
  split; [reflexivity|].
  destruct (vr_embedded_init_readiness None 50 false boot eq_refl)
    as (m' & Hrun & Hcr & _ & Hready).
  exists m'. auto.
Defined.

(** ** The broker connection *)



(** ** The tick counter at its wrap-around *)

Ltac gate_cases Hw :=
  repeat (cbn; rewrite ?Hw;
          match goal with
          | |- exists m', ?run = _ /\ _ =>
              match run with
              | context [if negb ?c then _ else _] => destruct c eqn:?
              | context [if ?a && _ then _ else _] => destruct a eqn:?
              | context [if ?c then _ else _] => destruct c eqn:?
              end
          end);
  cbn; eexists; repeat split; reflexivity.

(** X13: The three gates of the loop body compare the number of ticks since
    they last fired with their interval, and the [uint32_t] subtraction
    keeps that number exact when the tick counter wraps: if the current
    tick is [d] ticks after a gate's last firing modulo 2^32, the gate
    fires exactly when its interval is at most [d].  A firing sensor gate
    counts a frame, and every firing gate records the current tick. *)
Theorem gates_measure_elapsed_ticks_across_wrap :
  forall (publish_ok : bool) (m : machine) (d : Z),
    0 <= d < 2 ^ 32 ->
    (g_system_tick m = wrap32 (g_last_sensor_update m + d) ->
     sensor_update_hz (g_embedded_config m) <> 0 ->
     exists m',
       sensor_gate m = Ret tt m' /\
       frame_counter m' =
         (if 1000 / sensor_update_hz (g_embedded_config m) <=? d
          then wrap32 (frame_counter m + 1) else frame_counter m) /\
       g_last_sensor_update m' =
         (if 1000 / sensor_update_hz (g_embedded_config m) <=? d
          then g_system_tick m else g_last_sensor_update m)) /\
    (g_system_tick m = wrap32 (g_last_telemetry_send m + d) ->
     telemetry_rate_hz (g_embedded_config m) <> 0 ->
     exists m',
       telemetry_gate publish_ok m = Ret tt m' /\
       g_last_telemetry_send m' =
         (if 1000 / telemetry_rate_hz (g_embedded_config m) <=? d
          then g_system_tick m else g_last_telemetry_send m)) /\
    (g_system_tick m = wrap32 (g_last_watchdog_feed m + d) ->
     exists m',
       watchdog_gate m = Ret tt m' /\
       g_last_watchdog_feed m' =
         (if watchdog_enabled (g_embedded_config m) &&
             (watchdog_timeout_ms (g_embedded_config m) / 2 <=? d)
          then g_system_tick m else g_last_watchdog_feed m) /\
       last_watchdog_reset (g_embedded_status m') =
         (if watchdog_enabled (g_embedded_config m) &&
             (watchdog_timeout_ms (g_embedded_config m) / 2 <=? d)
          then g_system_tick m
          else last_watchdog_reset (g_embedded_status m))).
Proof.
  intros publish_ok m d Hd.
  assert (Hwrap : forall l, wrap32 (wrap32 (l + d) - l) = d).
  { intros l. unfold wrap32. rewrite Zminus_mod_idemp_l.
    replace (l + d - l) with d by lia. apply Z.mod_small. exact Hd. }
  repeat split.
  - intros Htick Hrate. apply Z.eqb_neq in Hrate.
    pose proof (Hwrap (g_last_sensor_update m)) as Hw. rewrite <- Htick in Hw.
    unfold sensor_gate, rate_interval, vr_sensors_update. unfold_monad.
    rewrite Hrate. gate_cases Hw.
  - intros Htick Hrate. apply Z.eqb_neq in Hrate.
    pose proof (Hwrap (g_last_telemetry_send m)) as Hw.
    rewrite <- Htick in Hw.
    unfold telemetry_gate, rate_interval, vr_telemetry_send_packet,
      vr_telemetry_is_ready, vr_rabbitmq_is_connected,
      vr_rabbitmq_send_telemetry, perform.
    unfold_monad.
    rewrite Hrate. gate_cases Hw.
  - intros Htick.
    pose proof (Hwrap (g_last_watchdog_feed m)) as Hw. rewrite <- Htick in Hw.
    unfold watchdog_gate, vr_watchdog_feed. unfold_monad.
    gate_cases Hw.
Qed.

Lemma gates_measure_elapsed_ticks_across_wrap_witness :
  0 <= 3 < 2 ^ 32 /\
  g_system_tick wrapped_eager = 1 /\
  g_last_sensor_update wrapped_eager = 2 ^ 32 - 2 /\
  exists m',
    sensor_gate wrapped_eager = Ret tt m' /\
    frame_counter m' = 1 /\ g_last_sensor_update m' = 1.
Proof.
  assert (Hd : 0 <= 3 < 2 ^ 32) by lia.
  split; [exact Hd|]. split; [reflexivity|]. split; [reflexivity|].
  destruct (gates_measure_elapsed_ticks_across_wrap true wrapped_eager 3 Hd)
    as [Hsensor _].
  destruct (Hsensor ltac:(by_computation) ltac:(by_computation))
    as (m' & Hrun & Hframe & Hlast).
  exists m'. split; [exact Hrun|].
  split; [rewrite Hframe|rewrite Hlast]; by_computation.
Defined.

(** ** Start-up *)

(** X14: At start-up the telemetry path is ready whenever the connection that
    [vr_embedded_init] makes on its own succeeded, also under [-n]: the
    flag only skips [main]'s second connection.  Without [-n], [main]
    gives up with status 1 exactly when its own connection fails, even if
    the first one is up. *)
Theorem main_startup_readiness :
  forall (config : vr_embedded_config_t) (use_rabbitmq : bool)
         (rand_value : Z) (local_broker_ok cli_broker_ok : bool),
    exists m',
      main_startup config use_rabbitmq rand_value local_broker_ok
                   cli_broker_ok boot =
        Ret (if use_rabbitmq && negb cli_broker_ok then Some 1 else None) m' /\
      telemetry_ready m' =
        (local_broker_ok || (use_rabbitmq && cli_broker_ok)) /\
      state (g_embedded_status m') = VR_SYSTEM_READY.
Proof.
  intros config use_rabbitmq rand_value local_broker_ok cli_broker_ok.
  destruct (vr_embedded_init_frame (Some config) rand_value local_broker_ok
              boot eq_refl)
    as (m1 & Hrun & _ & _ & _ & _ & _ & _ & _ & _ & _ & _ & _ & Hconn & Hcr).
  destruct (vr_embedded_init_free (Some config) rand_value local_broker_ok
              boot eq_refl) as (m1' & Hrun' & Hstate & _).
  rewrite Hrun in Hrun'. injection Hrun' as <-.
  unfold main_startup. unfold bind at 1. rewrite Hrun.
  unfold telemetry_ready, vr_rabbitmq_init. unfold_monad.
  change (g_connected boot) with false in Hconn. rewrite orb_false_r in Hconn.
  destruct use_rabbitmq, cli_broker_ok; cbn;
    eexists; (split; [reflexivity|]); cbn; rewrite Hcr, ?Hconn, Hstate;
    destruct local_broker_ok; auto.
Qed.

(** * The synthesised values *)

Section SynthesizerBounds.
Import Quaternion Synthesizer.
Local Open Scope R_scope.
Variables rnd32 rnd64 fsin fcos : R -> R.
Hypothesis rnd32_monotone : monotone rnd32.
Hypothesis rnd64_monotone : monotone rnd64.
Hypothesis rnd32_exact : keeps_binary32 rnd32.
Hypothesis rnd64_exact : keeps_binary32 rnd64.
Hypothesis fsin_bound : forall v : R, -1 <= fsin v <= 1.
Hypothesis fcos_bound : forall v : R, -1 <= fcos v <= 1.

Lemma binary32_fixed (rnd : R -> R) (v : R) (m : Z) (e : nat) :
  keeps_binary32 rnd -> v = f32_value m e ->
  (Z.abs m <= 2 ^ 24)%Z -> (e <= 149)%nat -> rnd v = v.
Proof. intros Hrnd -> Hm He. apply Hrnd; assumption. Qed.

Lemma between (rnd : R -> R) (lo hi v : R) :
  monotone rnd -> rnd lo = lo -> rnd hi = hi ->
  lo <= v <= hi -> lo <= rnd v <= hi.
Proof.
  intros Hmono Hlo Hhi [H1 H2]. split.
  - rewrite <- Hlo. apply Hmono. exact H1.
  - rewrite <- Hhi. apply Hmono. exact H2.
Qed.

Ltac binary32 m e :=
  apply (binary32_fixed _ _ m e);
  [assumption | unfold f32_value; simpl; lra | simpl; lia | lia].

(** A value [o + s * a] computed in double and stored in a [float], for
    [s] in [-1, 1]. *)
Lemma offset_wave_bound (o a lo hi s : R) :
  0 <= a -> rnd64 a = a -> rnd64 (- a) = - a ->
  rnd64 lo = lo -> rnd64 hi = hi -> rnd32 lo = lo -> rnd32 hi = hi ->
  lo <= o - a -> o + a <= hi ->
  -1 <= s <= 1 ->
  lo <= rnd32 (rnd64 (o + rnd64 (s * a))) <= hi.
Proof.
  intros Ha Hap Han Hlo64 Hhi64 Hlo32 Hhi32 Hlo Hhi Hs.
  assert (Hw : - a <= rnd64 (s * a) <= a).
  { apply between; try assumption. nra. }
  apply between; try assumption.
  apply between; try assumption. lra.
Qed.

(** X16: The system metrics of the packet stay in fixed ranges at every
    simulation time: CPU usage in [35, 55] %, GPU usage in [45, 75] % and the
    temperature, a linear function of the two, in [43, 48.25] degrees. *)
Theorem system_metrics_bounds (t : R) :
  35 <= cpu_usage rnd32 rnd64 fsin t <= 55 /\
  45 <= gpu_usage rnd32 rnd64 fcos t <= 75 /\
  43 <= temperature rnd32 rnd64 fsin fcos t <= 193 / 4.
Proof.
  assert (Hcpu : 35 <= cpu_usage rnd32 rnd64 fsin t <= 55).
  { unfold cpu_usage. apply (offset_wave_bound 45 10); try lra;
      try apply fsin_bound.
    - binary32 10%Z 0%nat.
    - binary32 (-10)%Z 0%nat.
    - binary32 35%Z 0%nat.
    - binary32 55%Z 0%nat.
    - binary32 35%Z 0%nat.
    - binary32 55%Z 0%nat. }
  assert (Hgpu : 45 <= gpu_usage rnd32 rnd64 fcos t <= 75).
  { unfold gpu_usage. apply (offset_wave_bound 60 15); try lra;
      try apply fcos_bound.
    - binary32 15%Z 0%nat.
    - binary32 (-15)%Z 0%nat.
    - binary32 45%Z 0%nat.
    - binary32 75%Z 0%nat.
    - binary32 45%Z 0%nat.
    - binary32 75%Z 0%nat. }
  split; [exact Hcpu|]. split; [exact Hgpu|].
  unfold temperature.
  set (cpu := cpu_usage rnd32 rnd64 fsin t) in *.
  set (gpu := gpu_usage rnd32 rnd64 fcos t) in *.
  assert (Hsum : 80 <= rnd32 (cpu + gpu) <= 130).
  { apply between; try assumption; [binary32 80%Z 0%nat|binary32 130%Z 0%nat|lra]. }
  assert (Hc : 1 / 10 <= c_0_1 <= 53 / 520).
  { unfold c_0_1, f32_value. simpl. lra. }
  assert (Hprod : 8 <= rnd32 (rnd32 (cpu + gpu) * c_0_1) <= 53 / 4).
  { apply between; try assumption; [binary32 8%Z 0%nat|binary32 53%Z 2%nat|nra]. }
  apply between; try assumption; [binary32 43%Z 0%nat|binary32 193%Z 2%nat|lra].
Qed.


(** X17: The normalised values of the packet stay inside their ranges at every
    simulation time: both gaze coordinates in [3/8, 5/8] and the grip
    strength in [3/16, 13/16], inside the [0, 1] the header documents; the
    pupil diameter stays in [3, 4] mm. *)
Theorem tracking_values_bounds (t : R) :
  3 / 8 <= left_eye_x rnd32 rnd64 fsin t <= 5 / 8 /\
  3 / 8 <= left_eye_y rnd32 rnd64 fcos t <= 5 / 8 /\
  3 <= pupil_diameter rnd32 rnd64 fsin t <= 4 /\
  3 / 16 <= grip_strength rnd32 rnd64 fsin t <= 13 / 16.
Proof.
  assert (Hc1 : 0 <= c_0_1 <= 1 / 8)
    by (unfold c_0_1, f32_value; simpl; lra).
  assert (Hc3 : 0 <= c_0_3 <= 5 / 16)
    by (unfold c_0_3, f32_value; simpl; lra).
  assert (H01 : forall rnd, keeps_binary32 rnd ->
                  rnd c_0_1 = c_0_1 /\ rnd (- c_0_1) = - c_0_1).
  { intros rnd Hrnd. split.
    - apply (binary32_fixed rnd _ 13421773%Z 27%nat);
        [assumption|reflexivity|simpl; lia|lia].
    - apply (binary32_fixed rnd _ (-13421773)%Z 27%nat);
        [assumption|unfold c_0_1, f32_value; simpl; lra|simpl; lia|lia]. }
  assert (H03 : forall rnd, keeps_binary32 rnd ->
                  rnd c_0_3 = c_0_3 /\ rnd (- c_0_3) = - c_0_3).
  { intros rnd Hrnd. split.
    - apply (binary32_fixed rnd _ 10066330%Z 25%nat);
        [assumption|reflexivity|simpl; lia|lia].
    - apply (binary32_fixed rnd _ (-10066330)%Z 25%nat);
        [assumption|unfold c_0_3, f32_value; simpl; lra|simpl; lia|lia]. }
  split; [|split; [|split]].
  - unfold left_eye_x. apply (offset_wave_bound (1 / 2) c_0_1);
      try apply fsin_bound; try apply H01; try assumption; try lra.
    + binary32 3%Z 3%nat.
    + binary32 5%Z 3%nat.
    + binary32 3%Z 3%nat.
    + binary32 5%Z 3%nat.
  - unfold left_eye_y. apply (offset_wave_bound (1 / 2) c_0_1);
      try apply fcos_bound; try apply H01; try assumption; try lra.
    + binary32 3%Z 3%nat.
    + binary32 5%Z 3%nat.
    + binary32 3%Z 3%nat.
    + binary32 5%Z 3%nat.
  - unfold pupil_diameter. apply (offset_wave_bound (7 / 2) (1 / 2));
      try apply fsin_bound; try lra.
    + binary32 1%Z 1%nat.
    + binary32 (-1)%Z 1%nat.
    + binary32 3%Z 0%nat.
    + binary32 4%Z 0%nat.
    + binary32 3%Z 0%nat.
    + binary32 4%Z 0%nat.
  - unfold grip_strength. apply (offset_wave_bound (1 / 2) c_0_3);
      try apply fsin_bound; try apply H03; try assumption; try lra.
    + binary32 3%Z 4%nat.
    + binary32 13%Z 4%nat.
    + binary32 3%Z 4%nat.
    + binary32 13%Z 4%nat.
Qed.

(** [a] is a value a [float] holds, so both roundings leave it and its
    opposite where they are. *)
Definition float_value (a : R) : Prop :=
  rnd32 a = a /\ rnd32 (- a) = - a /\ rnd64 a = a /\ rnd64 (- a) = - a.

(** X18: [vr_generate_sine_wave] never leaves [[-|amplitude|, |amplitude|]],
    whatever the time and the frequency. *)
Theorem sine_wave_bound (m_pi time frequency amplitude : R) :
  float_value amplitude ->
  - Rabs amplitude <=
    vr_generate_sine_wave rnd32 rnd64 fsin m_pi time frequency amplitude <=
  Rabs amplitude.
Proof.
  intros (Hp32 & Hn32 & Hp64 & Hn64). unfold vr_generate_sine_wave.
  set (s := fsin _). pose proof (fsin_bound
    (rnd64 (rnd64 (rnd64 (2 * m_pi) * frequency) * time))) as Hs.
  fold s in Hs.
  destruct (Rle_dec 0 amplitude) as [Hpos|Hneg].
  - rewrite Rabs_right by lra.
    apply between; try assumption. apply between; try assumption. nra.
  - rewrite Rabs_left by lra. rewrite Ropp_involutive.
    apply between; try assumption; try (rewrite Ropp_involutive; assumption).
    apply between; try assumption; try (rewrite Ropp_involutive; assumption).
    nra.
Qed.

Lemma perturbation_bound (RAND_MAX r : Z) (level : R) :
  (0 <= r <= RAND_MAX)%Z -> (1 <= RAND_MAX)%Z ->
  0 <= level -> float_value level ->
  - level <= perturbation rnd32 RAND_MAX r level <= level.
Proof.
  intros Hr Hmax Hlevel (Hp32 & Hn32 & _). unfold perturbation.
  assert (H0 : rnd32 0 = 0) by binary32 0%Z 0%nat.
  assert (H1 : rnd32 1 = 1) by binary32 1%Z 0%nat.
  assert (Hm1 : rnd32 (-1) = -1) by binary32 (-1)%Z 0%nat.
  assert (Hh : rnd32 (1 / 2) = 1 / 2) by binary32 1%Z 1%nat.
  assert (Hmh : rnd32 (- (1 / 2)) = - (1 / 2)) by binary32 (-1)%Z 1%nat.
  set (num := rnd32 (IZR r)). set (den := rnd32 (IZR RAND_MAX)).
  assert (Hnum : 0 <= num <= den).
  { unfold num, den. split.
    - rewrite <- H0. apply rnd32_monotone. apply IZR_le. lia.
    - apply rnd32_monotone. apply IZR_le. lia. }
  assert (Hden : 1 <= den).
  { unfold den. rewrite <- H1. apply rnd32_monotone. apply IZR_le. lia. }
  assert (Hratio : 0 <= num / den <= 1).
  { split.
    - apply Rmult_le_pos; [lra|]. left. apply Rinv_0_lt_compat. lra.
    - apply Rmult_le_reg_r with den; [lra|]. field_simplify; lra. }
  assert (Hu : 0 <= rnd32 (num / den) <= 1)
    by (apply between; assumption).
  assert (Hc : - (1 / 2) <= rnd32 (rnd32 (num / den) - 1 / 2) <= 1 / 2)
    by (apply between; try assumption; lra).
  assert (Hd : -1 <= rnd32 (rnd32 (rnd32 (num / den) - 1 / 2) * 2) <= 1)
    by (apply between; try assumption; lra).
  apply between; try assumption. nra.
Qed.


(** X19: The perturbation that [vr_add_sensor_noise] and
    [vr_generate_random_walk] draw is at most the level in size, for
    every value [rand()] can return, so the cell moves by no more than the
    level (up to the rounding of the sum); a null pointer leaves nothing to
    change, and the random walk then returns 0.  The random walk returns
    exactly what it stores. *)
Theorem sensor_noise_is_bounded (RAND_MAX r : Z) (v level : R) :
  (0 <= r <= RAND_MAX)%Z -> (1 <= RAND_MAX)%Z ->
  0 <= level -> float_value level ->
  vr_add_sensor_noise rnd32 RAND_MAX r None level = None /\
  vr_generate_random_walk rnd32 RAND_MAX r None level = (0, None) /\
  (exists v',
     vr_add_sensor_noise rnd32 RAND_MAX r (Some v) level = Some v' /\
     vr_generate_random_walk rnd32 RAND_MAX r (Some v) level = (v', Some v') /\
     rnd32 (v - level) <= v' <= rnd32 (v + level)).
Proof.
  intros Hr Hmax Hlevel Hfloat.
  split; [reflexivity|]. split; [reflexivity|].
  pose proof (perturbation_bound RAND_MAX r level Hr Hmax Hlevel Hfloat) as Hp.
  eexists. split; [reflexivity|]. split; [reflexivity|].
  split; apply rnd32_monotone; lra.
Qed.

End SynthesizerBounds.

Section OrientationBounds.
Import Quaternion.
Local Open Scope R_scope.
Variables rnd32 rnd64 fsin : R -> R.
Hypothesis rnd32_monotone : monotone rnd32.
Hypothesis rnd64_monotone : monotone rnd64.
Hypothesis rnd32_exact : keeps_binary32 rnd32.
Hypothesis rnd64_exact : keeps_binary32 rnd64.
Hypothesis fsin_bound : forall v : R, -1 <= fsin v <= 1.

(** X15: The head orientation stays close to the identity rotation at every
    simulation time: each of the three vector components is within its
    amplitude ([0.1f], [0.2f], [0.05f]) and the reconstructed [w] lies in
    [15/16, 1]. *)
Theorem orientation_stays_near_identity (t : R) :
  - c_0_1 <= orientation_x rnd32 rnd64 fsin t <= c_0_1 /\
  - c_0_2 <= orientation_y rnd32 rnd64 fsin t <= c_0_2 /\
  - c_0_05 <= orientation_z rnd32 rnd64 fsin t <= c_0_05 /\
  15 / 16 <= orientation_w rnd32 rnd64 fsin t <= 1.
Proof.
  split; [|split; [|split]].
  - apply (amplitude_bound rnd32 rnd64); auto; lia.
  - apply (amplitude_bound rnd32 rnd64); auto; lia.
  - apply (amplitude_bound rnd32 rnd64); auto; lia.
  - unfold orientation_w.
    pose proof (radicand_bounds rnd32 rnd64 fsin rnd32_monotone rnd64_monotone
                  rnd32_exact rnd64_exact fsin_bound t) as [Hlo Hhi].
    assert (Hroot : 15 / 16 <= sqrt (radicand rnd32 rnd64 fsin t) <= 1).
    { split.
      - replace (15 / 16) with (sqrt ((15 / 16) * (15 / 16)))
          by (apply sqrt_square; lra).
        apply sqrt_le_1_alt. lra.
      - rewrite <- sqrt_1. apply sqrt_le_1_alt. exact Hhi. }
    assert (Hfix : forall rnd, keeps_binary32 rnd ->
                     rnd (15 / 16) = 15 / 16 /\ rnd 1 = 1).
    { intros rnd Hrnd. split.
      - replace (15 / 16) with (f32_value 15 4)
          by (unfold f32_value; simpl; lra).
        apply Hrnd; [simpl; lia|lia].
      - replace 1 with (f32_value 1 0) by (unfold f32_value; simpl; lra).
        apply Hrnd; [simpl; lia|lia]. }
    destruct (Hfix rnd32 rnd32_exact) as [Ha32 Hb32].
    destruct (Hfix rnd64 rnd64_exact) as [Ha64 Hb64].
    split.
    + rewrite <- Ha32. apply rnd32_monotone.
      rewrite <- Ha64. apply rnd64_monotone. apply Hroot.
    + apply Rle_trans with (rnd32 1); [|rewrite Hb32; apply Rle_refl].
      apply rnd32_monotone.
      apply Rle_trans with (rnd64 1); [|rewrite Hb64; apply Rle_refl].
      apply rnd64_monotone. apply Hroot.
Qed.

End OrientationBounds.

(** The bounds hold of the exact computation, where nothing is rounded. *)

Lemma exact_arithmetic :
  Quaternion.monotone (fun v : R => v) /\
  Quaternion.keeps_binary32 (fun v : R => v).
Proof.
  split; [intros x y Hxy; exact Hxy|intros m e _ _; reflexivity].
Qed.

Lemma system_metrics_bounds_witness :
  (forall v : R, (-1 <= sin v <= 1)%R) /\
  (forall v : R, (-1 <= cos v <= 1)%R) /\
  (43 <= Synthesizer.temperature (fun v => v) (fun v => v) sin cos 1
      <= 193 / 4)%R.
Proof.
  split; [exact SIN_bound|]. split; [exact COS_bound|].
  exact (proj2 (proj2
    (system_metrics_bounds (fun v => v) (fun v => v) sin cos
       (proj1 exact_arithmetic) (proj1 exact_arithmetic)
       (proj2 exact_arithmetic) (proj2 exact_arithmetic)
       SIN_bound COS_bound 1%R))).
Defined.

Lemma tracking_values_bounds_witness :
  (forall v : R, (-1 <= sin v <= 1)%R) /\
  (3 / 16 <= Synthesizer.grip_strength (fun v => v) (fun v => v) sin 1
          <= 13 / 16)%R.
Proof.
  split; [exact SIN_bound|].
  exact (proj2 (proj2 (proj2
    (tracking_values_bounds (fun v => v) (fun v => v) sin cos
       (proj1 exact_arithmetic) (proj1 exact_arithmetic)
       (proj2 exact_arithmetic) (proj2 exact_arithmetic)
       SIN_bound COS_bound 1%R)))).
Defined.

Lemma sine_wave_bound_witness :
  float_value (fun v => v) (fun v => v) 2 /\
  (- Rabs 2 <=
   Synthesizer.vr_generate_sine_wave (fun v => v) (fun v => v) sin PI 1 1 2
   <= Rabs 2)%R.
Proof.
  assert (Hfloat : float_value (fun v => v) (fun v => v) 2)
    by (repeat split; reflexivity).
  split; [exact Hfloat|].
  exact (sine_wave_bound (fun v => v) (fun v => v) sin
           (proj1 exact_arithmetic) (proj1 exact_arithmetic)
           SIN_bound PI 1%R 1%R 2%R Hfloat).
Defined.

Lemma sensor_noise_is_bounded_witness :
  float_value (fun v => v) (fun v => v) (1 / 100) /\
  exists v',
    Synthesizer.vr_add_sensor_noise (fun v => v) 2147483647 12345 (Some 1%R)
      (1 / 100) = Some v' /\
    (1 - 1 / 100 <= v' <= 1 + 1 / 100)%R.
Proof.
  assert (Hfloat : float_value (fun v => v) (fun v => v) (1 / 100))
    by (repeat split; reflexivity).
  split; [exact Hfloat|].
  destruct (sensor_noise_is_bounded (fun v => v) (fun v => v)
              (proj1 exact_arithmetic) (proj2 exact_arithmetic)
              2147483647 12345 1%R (1 / 100)%R
              ltac:(lia) ltac:(lia) ltac:(lra) Hfloat)
    as (_ & _ & v' & Hrun & _ & Hbound).
  exists v'. split; [exact Hrun|exact Hbound].
Defined.

Lemma orientation_stays_near_identity_witness :
  (forall v : R, (-1 <= sin v <= 1)%R) /\
  (15 / 16 <= Quaternion.orientation_w (fun v => v) (fun v => v) sin 1 <= 1)%R.
Proof.
  split; [exact SIN_bound|].
  exact (proj2 (proj2 (proj2
    (orientation_stays_near_identity (fun v => v) (fun v => v) sin
       (proj1 exact_arithmetic) (proj1 exact_arithmetic)
       (proj2 exact_arithmetic) (proj2 exact_arithmetic)
       SIN_bound 1%R)))).
Defined.
